(** * ASV voltammetric analyzer: the signal-processing core of [app.py]

  A shallow embedding of [apply_technique], [process_lsv], [process_dpv],
  [process_swv] and [optimize_asv_parameters], together with the fragments
  of numpy, scipy and pandas that these five functions call.

  Layout:
  - [Py]      Python values, exceptions and dictionaries;
  - [Numpy]   one-dimensional arrays: basic slicing, broadcasting, [-];
  - [Scipy]   [savgol_filter(x, window_length=21, polyorder=2)];
  - [App]     the five functions of [app.py], on array values;
  - [Mem]     the same functions over a store of array buffers, where
              slices are views and scipy writes its output in place;
  - [Ordered] the optimizer with the insertion order of its dictionary;
  - [Str]     the [str] methods that make the metric labels;
  - [Ui]      [create_asv_app], by the Streamlit calls of a run;
  - the theorems. *)

From Stdlib Require Import ZArith Floats Lia Ascii.
From stdpp Require Import gmap strings list.

Set Warnings "-inexact-float".

(** ** Python values, exceptions, dictionaries *)

Module Py.

(** The exceptions that the modelled code can raise.  numpy and scipy both
    raise [ValueError]; the constructors keep the cause apart instead of
    the message text:
    - [ValueError_broadcast n m]: "operands could not be broadcast together
      with shapes (n,) (m,)";
    - [ValueError_window w n]: "If mode is 'interp', window_length must be
      less than or equal to the size of x.";
    - [LinAlgError]: [numpy.linalg.LinAlgError], a subclass of [ValueError],
      "SVD did not converge in Linear Least Squares". *)
Inductive exn : Type :=
| KeyError (key : string)
| ValueError_broadcast (n m : nat)
| ValueError_window (window_length size : nat)
| LinAlgError.

(** A call either returns a value or raises. *)
Inductive result (A : Type) : Type :=
| Ok (a : A)
| Raise (e : exn).
Global Arguments Ok {A} a.
Global Arguments Raise {A} e.

Global Instance result_ret : MRet result := λ A a, Ok a.
Global Instance result_bind : MBind result := λ A B f r,
  match r with
  | Ok a => f a
  | Raise e => Raise e
  end.

Definition raises {A} (r : result A) : Prop := ∃ e, r = Raise e.

(** Numbers as they occur in the parameter dictionaries: Python [int]
    (unbounded) and Python [float] (binary64). *)
Inductive value : Type :=
| PyInt (z : Z)
| PyFloat (f : float).

(** A [dict] with string keys.  Equality of dictionaries ignores insertion
    order, as Python's [==] does. *)
Abbreviation dict := (gmap string value).

(** [d[k]] *)
Definition getitem {V} (d : gmap string V) (k : string) : result V :=
  match d !! k with
  | Some v => Ok v
  | None => Raise (KeyError k)
  end.

(** The dictionary display [{k1: v1, ..., **d}]: entries are stored left to
    right, a later entry replacing an earlier one with the same key. *)
Definition unpack_into {V} (d acc : gmap string V) : gmap string V := d ∪ acc.

End Py.
Import Py.

(** ** numpy: one-dimensional arrays *)

Module Numpy.

(** Array elements.  [pandas.read_csv] gives a numeric column the dtype
    [int64] or [float64]; an [int64] is kept as a [Z] with the wrap-around
    written out, a [float64] is the kernel's binary64 float. *)
Inductive scalar : Type :=
| Int64 (z : Z)
| Float64 (f : float).

(** A one-dimensional array, by its elements in index order.  (numpy arrays
    are homogeneous: all elements carry the array's dtype.) *)
Abbreviation ndarray := (list scalar).

Definition wrap64 (z : Z) : Z := ((z + 2 ^ 63) mod 2 ^ 64 - 2 ^ 63)%Z.

(** [int64 -> float64], rounding to nearest.  [of_uint63] takes 63 bits;
    the one int64 of larger magnitude, [-2^63], is a power of two. *)
Definition float_of_int64 (z : Z) : float :=
  if (z <? 0)%Z then
    if (z =? - 2 ^ 63)%Z then (-9223372036854775808)%float
    else PrimFloat.opp (PrimFloat.of_uint63 (Uint63.of_Z (- z)))
  else PrimFloat.of_uint63 (Uint63.of_Z z).

Definition to_float64 (x : scalar) : float :=
  match x with
  | Int64 z => float_of_int64 z
  | Float64 f => f
  end.

(** Element-wise [-] of numpy: [int64 - int64] wraps, any [float64]
    operand promotes the other one. *)
Definition subtract_scalar (x y : scalar) : scalar :=
  match x, y with
  | Int64 a, Int64 b => Int64 (wrap64 (a - b))
  | _, _ => Float64 (PrimFloat.sub (to_float64 x) (to_float64 y))
  end.

(** [len(range(start, n, step))] for [0 <= start], [0 < step]. *)
Definition slice_len (n start step : nat) : nat :=
  (n - start + (step - 1)) / step.

(** Basic slicing [a[start::step]]: the elements at [start], [start+step],
    ... below [len(a)]. *)
Definition slice_from (start step : nat) (a : ndarray) : ndarray :=
  omap (λ i, a !! (start + i * step)) (seq 0 (slice_len (length a) start step)).

(** Broadcasting of two shapes [(n,)] and [(m,)]: equal sizes stay, a size
    of 1 is stretched to the other size (also to 0), anything else does
    not broadcast. *)
Definition broadcast_shape (n m : nat) : option nat :=
  if decide (n = m) then Some n
  else if decide (n = 1) then Some m
  else if decide (m = 1) then Some n
  else None.

(** [np.broadcast_to(a, (k,))], for an [a] that broadcasts to [k]. *)
Definition broadcast_to (a : ndarray) (k : nat) : ndarray :=
  if decide (length a = k) then a
  else match a with
       | [x] => replicate k x
       | _ => a
       end.

(** [a - b] on arrays. *)
Definition subtract (a b : ndarray) : result ndarray :=
  match broadcast_shape (length a) (length b) with
  | Some k => Ok (zip_with subtract_scalar (broadcast_to a k) (broadcast_to b k))
  | None => Raise (ValueError_broadcast (length a) (length b))
  end.

End Numpy.
Import Numpy.

(** ** scipy.signal: [savgol_filter] as [process_lsv] calls it *)

Module Scipy.

(** [process_lsv] fixes [window_length=21] and [polyorder=2]; the other
    arguments keep their defaults ([deriv=0], [delta=1.0], [mode='interp']).
    scipy obtains the filter weights and the edge polynomials by numerical
    least squares; here they are the closed forms of these least-squares
    problems for 21 equally spaced points and degree 2, evaluated in
    binary64.  Values therefore agree with scipy's up to rounding; shapes,
    the data flow between [x] and [y], and the errors are scipy's: the
    window that does not fit, and the least-squares solver that fails on a
    sample that is not finite. *)
Definition window_length : nat := 21.

Definition float_of_nat (n : nat) : float := float_of_int64 (Z.of_nat n).

(** [savgol_coeffs(21, 2)]: weight [(329 - 5 k^2) / 3059] at offset
    [k = j - 10] from the window centre. *)
Definition savgol_coeffs : list float :=
  map (λ j : nat,
         let k := (Z.of_nat j - 10)%Z in
         (float_of_int64 (329 - 5 * k * k) / 3059)%float)
      (seq 0 window_length).

(** [scipy.ndimage.correlate1d(input, weights, mode='constant', cval=0.0)]:
    [output[i] = sum_j weights[j] * input[i + j - len(weights) // 2]], an
    index outside [input] reading [cval].  The output has the shape of the
    input. *)
Definition padded (input : list float) (half k : nat) : float :=
  if decide (k < half) then 0%float else default 0%float (input !! (k - half)).

Definition correlate1d (input weights : list float) : list float :=
  let half := length weights / 2 in
  map (λ i, foldl (λ acc jw, (acc + jw.2 * padded input half (i + jw.1))%float)
                  0%float (imap pair weights))
      (seq 0 (length input)).

(** [scipy.ndimage.convolve1d]: correlation with the reversed weights (the
    weights have odd length, so the origin stays at the centre). *)
Definition convolve1d (input weights : list float) : list float :=
  correlate1d input (rev weights).

(** [np.polyfit(np.arange(0, 21), xs, 2)]: the least-squares parabola through
    21 samples, highest power first.  With [u = t - 10], [S0 = 21],
    [S2 = sum u^2 = 770], [S4 = sum u^4 = 50666] the normal equations give
    [p(u) = a + b u + c u^2] with the [a], [b], [c] below.  numpy solves the
    problem with [numpy.linalg.lstsq], which raises [LinAlgError] when a
    sample is NaN or infinite. *)
Definition moment (k : nat) (xs : list float) : float :=
  foldl (λ acc tx,
           let u := (float_of_nat tx.1 - 10)%float in
           (acc + tx.2 * Nat.iter k (λ p, p * u) 1)%float)
        0%float (imap pair xs).

Definition polyfit (xs : list float) : result (list float) :=
  if forallb PrimFloat.is_finite xs then
    let m0 := moment 0 xs in
    let m1 := moment 1 xs in
    let m2 := moment 2 xs in
    let a := ((50666 * m0 - 770 * m2) / 471086)%float in
    let b := (m1 / 770)%float in
    let c := ((21 * m2 - 770 * m0) / 471086)%float in
    Ok [c; (b - 20 * c)%float; (a - 10 * b + 100 * c)%float]
  else Raise LinAlgError.

(** [np.polyval(p, t)], by Horner's rule. *)
Definition polyval (p : list float) (t : float) : float :=
  foldl (λ acc c, (acc * t + c)%float) 0%float p.

(** [y[start:start+len(values)] = values] *)
Definition setitem_slice {A} (start : nat) (values : list A) (y : list A) : list A :=
  list_inserts start values y.

(** [_fit_edge(x, window_start, window_stop, interp_start, interp_stop, ..., y)]:
    fit a parabola to [x[window_start:window_stop]] and store its values at
    the positions [interp_start .. interp_stop - 1] into [y]. *)
Definition fit_edge_values (x : list float)
    (window_start window_stop interp_start interp_stop : nat)
    : result (list float) :=
  let x_edge := take (window_stop - window_start) (drop window_start x) in
  poly_coeffs ← polyfit x_edge;
  let i := seq (interp_start - window_start) (interp_stop - interp_start) in
  Ok (map (λ t, polyval poly_coeffs (float_of_nat t)) i).

Definition fit_edge (x : list float)
    (window_start window_stop interp_start interp_stop : nat)
    (y : list float) : result (list float) :=
  values ← fit_edge_values x window_start window_stop interp_start interp_stop;
  Ok (setitem_slice interp_start values y).

(** [_fit_edges_polyfit]: both ends of [y], the beginning first. *)
Definition fit_edges_polyfit (x y : list float) : result (list float) :=
  let halflen := window_length / 2 in
  y ← fit_edge x 0 window_length 0 halflen y;
  let n := length x in
  fit_edge x (n - window_length) n (n - halflen) n y.

(** [savgol_filter(x, window_length=21, polyorder=2)] *)
Definition savgol_filter (x : ndarray) : result ndarray :=
  let x := to_float64 <$> x in
  let coeffs := savgol_coeffs in
  if decide (length x < window_length) then
    Raise (ValueError_window window_length (length x))
  else
    let y := convolve1d x coeffs in
    y ← fit_edges_polyfit x y;
    Ok (Float64 <$> (y : list float)).

(** The samples that the two edge fits read: the first and the last
    [window_length] ones. *)
Definition edge_samples (x : list float) : list float :=
  take window_length x ++ drop (length x - window_length) x.

(** None of them is NaN or infinite. *)
Definition edges_finite (current : ndarray) : bool :=
  forallb PrimFloat.is_finite (edge_samples (to_float64 <$> current)).

End Scipy.
Import Scipy.

(** ** app.py, on array values *)

Module App.

(** A [pandas.DataFrame] by its columns; [data[c].values] is the column's
    array, and a missing column raises [KeyError]. *)
Abbreviation DataFrame := (gmap string ndarray).

(** The parameter schema of each technique: the keys its processor reads. *)
Definition lsv_schema (params : dict) : Prop :=
  is_Some (params !! "scan_rate").
Definition dpv_schema (params : dict) : Prop :=
  is_Some (params !! "amplitude") ∧ is_Some (params !! "step_potential").
Definition swv_schema (params : dict) : Prop :=
  is_Some (params !! "frequency") ∧ is_Some (params !! "amplitude").

(** [process_lsv] *)
Definition process_lsv (potential current : ndarray) (params : dict)
    : result ndarray :=
  scan_rate ← getitem params "scan_rate";
  corrected ← savgol_filter current;
  Ok corrected.

(** [process_dpv] *)
Definition process_dpv (potential current : ndarray) (params : dict)
    : result ndarray :=
  pulse_amplitude ← getitem params "amplitude";
  step_potential ← getitem params "step_potential";
  let forward_current := slice_from 0 2 current in
  let backward_current := slice_from 1 2 current in
  difference_current ← subtract forward_current backward_current;
  Ok difference_current.

(** [process_swv] *)
Definition process_swv (potential current : ndarray) (params : dict)
    : result ndarray :=
  frequency ← getitem params "frequency";
  amplitude ← getitem params "amplitude";
  let forward_current := slice_from 0 2 current in
  let backward_current := slice_from 1 2 current in
  net_current ← subtract forward_current backward_current;
  Ok net_current.

(** [apply_technique].  A Python function whose [if]/[elif] chain matches no
    branch runs off its end and returns [None]: the result is an
    [option], [None] standing for Python's [None]. *)
Definition apply_technique (potential current : ndarray) (technique : string)
    (params : dict) : result (option ndarray) :=
  if decide (technique = "LSV") then
    signal ← process_lsv potential current params; Ok (Some signal)
  else if decide (technique = "DPV") then
    signal ← process_dpv potential current params; Ok (Some signal)
  else if decide (technique = "SWV") then
    signal ← process_swv potential current params; Ok (Some signal)
  else Ok None.

(** The table [technique_params] of [optimize_asv_parameters], row by row. *)
Definition lsv_defaults : dict := <["scan_rate" := PyFloat 0.05]> ∅.
Definition dpv_defaults : dict :=
  <["step_potential" := PyFloat 0.004]> (<["amplitude" := PyFloat 0.025]> ∅).
Definition swv_defaults : dict :=
  <["amplitude" := PyFloat 0.025]> (<["frequency" := PyInt 25]> ∅).

Definition technique_params : gmap string dict :=
  <["SWV" := swv_defaults]> (<["DPV" := dpv_defaults]> (<["LSV" := lsv_defaults]> ∅)).

(** [optimize_asv_parameters].  Python evaluates the arguments of the call
    to [apply_technique] from left to right, and the dictionary display
    afterwards. *)
Definition optimize_asv_parameters (data : DataFrame) (metal technique : string)
    : result dict :=
  potential ← getitem data "Potential";
  current ← getitem data "Current";
  defaults ← getitem technique_params technique;
  processed_current ← apply_technique potential current technique defaults;
  defaults ← getitem technique_params technique;
  Ok (unpack_into defaults
        (<["deposition_time" := PyInt 120]>
        (<["deposition_potential" := PyFloat (-1.2)]> ∅))).

(** The values section 4.5 and section 8 of the specification promise for
    each technique: the defaults with the two deposition settings. *)
Definition spec_recommendation (technique : string) : option dict :=
  if decide (technique = "LSV") then
    Some (<["scan_rate" := PyFloat 0.05]>
         (<["deposition_potential" := PyFloat (-1.2)]>
         (<["deposition_time" := PyInt 120]> ∅)))
  else if decide (technique = "DPV") then
    Some (<["amplitude" := PyFloat 0.025]>
         (<["step_potential" := PyFloat 0.004]>
         (<["deposition_potential" := PyFloat (-1.2)]>
         (<["deposition_time" := PyInt 120]> ∅))))
  else if decide (technique = "SWV") then
    Some (<["frequency" := PyInt 25]>
         (<["amplitude" := PyFloat 0.025]>
         (<["deposition_potential" := PyFloat (-1.2)]>
         (<["deposition_time" := PyInt 120]> ∅))))
  else None.


End App.
Import App.

(** ** app.py over a store of array buffers

    numpy arrays are mutable objects: an array is a window (offset, stride,
    count) on a data buffer, basic slicing returns a new window on the SAME
    buffer, and an assignment through a window writes into that buffer.  This
    layer keeps the buffers in a store, so that it shows which buffers a call
    allocates and which it writes. *)

Module Mem.

Abbreviation loc := positive.

(** The store: every live data buffer, by its address. *)
Abbreviation heap := (gmap loc ndarray).

(** An array object. *)
Record array : Type := Array {
  base : loc;
  offset : nat;
  stride : nat;
  count : nat
}.

(** The elements an array shows, in index order. *)
Definition contents (h : heap) (a : array) : ndarray :=
  omap (λ i, h !! base a ≫= λ buf, buf !! (offset a + i * stride a))
       (seq 0 (count a)).

(** An array lies within a buffer of the store. *)
Definition alive (h : heap) (a : array) : Prop :=
  ∃ buf, h !! base a = Some buf ∧
         ∀ i, i < count a → offset a + i * stride a < length buf.

(** Computations that read and write the store and may raise. *)
Definition M (A : Type) : Type := heap → result A * heap.

Global Instance M_ret : MRet M := λ A a h, (Ok a, h).
Global Instance M_bind : MBind M := λ A B f m h,
  match m h with
  | (Ok a, h') => f a h'
  | (Raise e, h') => (Raise e, h')
  end.

Definition raise {A} (e : exn) : M A := λ h, (Raise e, h).

(** Dictionary and column lookups do not touch the store. *)
Definition lookup_or_raise {V} (d : gmap string V) (k : string) : M V :=
  λ h, (getitem d k, h).

(** Nor does a computation on values. *)
Definition lift {A} (r : result A) : M A := λ h, (r, h).

(** When [m] raises, the exception leaves the frame that holds the only
    reference to [y], and the buffer of [y] is released. *)
Definition released_on_error {A} (y : array) (m : M A) : M A := λ h,
  match m h with
  | (Ok a, h') => (Ok a, h')
  | (Raise e, h') => (Raise e, delete (base y) h')
  end.

(** A new array owning a new buffer. *)
Definition alloc (xs : ndarray) : M array := λ h,
  let l := fresh (dom h) in
  (Ok (Array l 0 1 (length xs)), <[l := xs]> h).

(** [a[start::step]]: a view, no buffer is allocated or written. *)
Definition slice_from (start step : nat) (a : array) : array :=
  Array (base a) (offset a + start * stride a) (stride a * step)
        (slice_len (count a) start step).

(** [a - b]: the result is a new array. *)
Definition subtract (a b : array) : M array := λ h,
  match Numpy.subtract (contents h a) (contents h b) with
  | Ok ys => alloc ys h
  | Raise e => (Raise e, h)
  end.

(** [y[start:start+len(values)] = values]: writes through the window [y]
    into its buffer. *)
Definition setitem_slice (y : array) (start : nat) (values : ndarray) : M unit :=
  λ h,
  match h !! base y with
  | Some buf =>
      (Ok (),
       <[base y :=
           foldl (λ b kv, <[offset y + (start + kv.1) * stride y := kv.2]> b)
                 buf (imap pair values)]> h)
  | None => (Ok (), h)
  end.

(** [_fit_edge]: reads [x], writes [y]. *)
Definition fit_edge (x : list float)
    (window_start window_stop interp_start interp_stop : nat)
    (y : array) : M unit :=
  values ← lift (fit_edge_values x window_start window_stop
                                 interp_start interp_stop);
  setitem_slice y interp_start (Float64 <$> values).

Definition fit_edges_polyfit (x : list float) (y : array) : M unit :=
  let halflen := window_length / 2 in
  _ ← fit_edge x 0 window_length 0 halflen y;
  let n := length x in
  fit_edge x (n - window_length) n (n - halflen) n y.

(** [savgol_filter]: [x] is read ([np.asarray], and [astype(float64)] for
    another dtype, give scipy its own float64 copy when they copy at all);
    [convolve1d] returns a new array [y], whose ends [_fit_edges_polyfit]
    then overwrites in place, unless a fit raises. *)
Definition savgol_filter (x : array) : M array := λ h,
  let xs := to_float64 <$> contents h x in
  let coeffs := savgol_coeffs in
  if decide (length xs < window_length) then
    (Raise (ValueError_window window_length (length xs)), h)
  else
    (y ← alloc (Float64 <$> convolve1d xs coeffs);
     _ ← released_on_error y (fit_edges_polyfit xs y);
     mret y) h.

Definition process_lsv (potential current : array) (params : dict) : M array :=
  scan_rate ← lookup_or_raise params "scan_rate";
  corrected ← savgol_filter current;
  mret corrected.

Definition process_dpv (potential current : array) (params : dict) : M array :=
  pulse_amplitude ← lookup_or_raise params "amplitude";
  step_potential ← lookup_or_raise params "step_potential";
  let forward_current := slice_from 0 2 current in
  let backward_current := slice_from 1 2 current in
  difference_current ← subtract forward_current backward_current;
  mret difference_current.

Definition process_swv (potential current : array) (params : dict) : M array :=
  frequency ← lookup_or_raise params "frequency";
  amplitude ← lookup_or_raise params "amplitude";
  let forward_current := slice_from 0 2 current in
  let backward_current := slice_from 1 2 current in
  net_current ← subtract forward_current backward_current;
  mret net_current.

Definition apply_technique (potential current : array) (technique : string)
    (params : dict) : M (option array) :=
  if decide (technique = "LSV") then
    signal ← process_lsv potential current params; mret (Some signal)
  else if decide (technique = "DPV") then
    signal ← process_dpv potential current params; mret (Some signal)
  else if decide (technique = "SWV") then
    signal ← process_swv potential current params; mret (Some signal)
  else mret None.

Definition optimize_asv_parameters (data : gmap string array)
    (metal technique : string) : M dict :=
  potential ← lookup_or_raise data "Potential";
  current ← lookup_or_raise data "Current";
  defaults ← lookup_or_raise technique_params technique;
  processed_current ← apply_technique potential current technique defaults;
  defaults ← lookup_or_raise technique_params technique;
  mret (unpack_into defaults
          (<["deposition_time" := PyInt 120]>
          (<["deposition_potential" := PyFloat (-1.2)]> ∅))).

(** What a call of the value layer looks like in the store: a returned
    array is a new buffer, an exception leaves the store as it was. *)
Definition returning (r : result ndarray) : M array :=
  match r with
  | Ok ys => alloc ys
  | Raise e => raise e
  end.

(** A computation keeps the store: every buffer that was there before is
    there afterwards, with the same elements. *)
Definition preserves {A} (m : M A) : Prop := ∀ h, h ⊆ (m h).2.

(** A computation writes no buffer other than the one of [y]. *)
Definition writes_only {A} (y : array) (m : M A) : Prop :=
  ∀ h l, l ≠ base y → (m h).2 !! l = h !! l.

(** An array shows after the call what it showed before. *)
Definition unchanged (h h' : heap) (a : array) : Prop :=
  h' !! base a = h !! base a ∧ contents h' a = contents h a.

(** An array returned by the computation owns a buffer that did not exist
    before. *)
Definition returns_fresh (m : M array) : Prop :=
  ∀ h out, (m h).1 = Ok out → base out ∉ dom h.

End Mem.

(** ** Sample data *)

Module Sample.

Definition ints (l : list Z) : ndarray := Int64 <$> l.

(** The sweep of the specification's concrete scenario. *)
Definition potential4 : ndarray := ints [0; 1; 2; 3]%Z.
Definition current4 : ndarray := ints [10; 2; 8; 4]%Z.
Definition sweep4 : DataFrame :=
  <["Current" := current4]> (<["Potential" := potential4]> ∅).

(** Odd numbers of samples. *)
Definition potential5 : ndarray := ints [0; 1; 2; 3; 4]%Z.
Definition current5 : ndarray := ints [1; 2; 3; 4; 5]%Z.
Definition sweep5 : DataFrame :=
  <["Current" := current5]> (<["Potential" := potential5]> ∅).
Definition current3 : ndarray := ints [10; 2; 8]%Z.
Definition current1 : ndarray := ints [7]%Z.

(** A float64 ramp, long enough for the smoothing window. *)
Definition ramp (n : nat) : ndarray := (λ i, Float64 (float_of_nat i)) <$> seq 0 n.

(** Data with an empty cell, which [pandas.read_csv] reads as NaN: 21 samples
    with the first one missing, and the ramp of 24 with the fourth one
    missing. *)
Definition gap21 : ndarray := Float64 PrimFloat.nan :: replicate 20 (Float64 1).
Definition gap24 : ndarray := <[3 := Float64 PrimFloat.nan]> (ramp 24).
Definition sweep_gap24 : DataFrame :=
  <["Current" := gap24]> (<["Potential" := ramp 24]> ∅).

(** The same sweep as pandas holds it: both columns are rows of one block,
    so that the two arrays are windows on one buffer. *)
Definition block4 : Mem.heap := <[1%positive := potential4 ++ current4]> ∅.
Definition column_potential4 : Mem.array := Mem.Array 1 0 1 4.
Definition column_current4 : Mem.array := Mem.Array 1 4 1 4.
Definition columns4 : gmap string Mem.array :=
  <["Current" := column_current4]> (<["Potential" := column_potential4]> ∅).

(** Two columns of different dtypes live in two buffers. *)
Definition store24 : Mem.heap :=
  <[2%positive := ramp 24]> (<[1%positive := ints (Z.of_nat <$> seq 0 24)]> ∅).
Definition column_potential24 : Mem.array := Mem.Array 1 0 1 24.
Definition column_current24 : Mem.array := Mem.Array 2 0 1 24.
Definition columns24 : gmap string Mem.array :=
  <["Current" := column_current24]> (<["Potential" := column_potential24]> ∅).

End Sample.

(** ** dtypes *)

Module Dtype.

(** An element of an [int64] array: an integer in the range of 64 bits. *)
Definition is_int64 (x : scalar) : bool :=
  match x with
  | Int64 z => (- 2 ^ 63 <=? z)%Z && (z <? 2 ^ 63)%Z
  | Float64 _ => false
  end.

(** An element of a [float64] array. *)
Definition is_float64 (x : scalar) : bool :=
  match x with
  | Int64 _ => false
  | Float64 _ => true
  end.

End Dtype.

(** ** Parameter sets and sizes a technique accepts *)

Module Accept.

(** The parameter set holds the keys that the processor of the technique
    reads. *)
Definition fits (technique : string) (params : dict) : Prop :=
  (technique = "LSV" ∧ lsv_schema params) ∨
  (technique = "DPV" ∧ dpv_schema params) ∨
  (technique = "SWV" ∧ swv_schema params).

(** The data on which the processor of the technique returns: the window of
    LSV must fit and the samples that the edge fits read be finite; the two
    halves of DPV and SWV must have one shape or broadcast, which they do
    for an even number of samples and up to three. *)
Definition accepted (technique : string) (current : ndarray) : bool :=
  if decide (technique = "LSV") then
    bool_decide (window_length ≤ length current) && edges_finite current
  else Nat.even (length current) || bool_decide (length current ≤ 3).

(** The exception on the other data. *)
Definition rejection (technique : string) (current : ndarray) : exn :=
  if decide (technique = "LSV") then
    if decide (length current < window_length)
    then ValueError_window window_length (length current)
    else LinAlgError
  else ValueError_broadcast (S (length current / 2)) (length current / 2).

End Accept.

(** ** The [str] methods behind the metric labels *)

Module Str.

(** Strings are byte strings here; the functions below are those of Python
    on ASCII text, which is what the parameter names are.  Bytes outside
    ASCII are left alone. *)
Definition is_upper (c : Ascii.ascii) : bool :=
  (65 <=? Ascii.nat_of_ascii c) && (Ascii.nat_of_ascii c <=? 90).
Definition is_lower (c : Ascii.ascii) : bool :=
  (97 <=? Ascii.nat_of_ascii c) && (Ascii.nat_of_ascii c <=? 122).
Definition is_cased (c : Ascii.ascii) : bool := is_upper c || is_lower c.

Definition to_upper (c : Ascii.ascii) : Ascii.ascii :=
  if is_lower c then Ascii.ascii_of_nat (Ascii.nat_of_ascii c - 32) else c.
Definition to_lower (c : Ascii.ascii) : Ascii.ascii :=
  if is_upper c then Ascii.ascii_of_nat (Ascii.nat_of_ascii c + 32) else c.

(** [s.replace(old, new)] for one-character [old] and [new]. *)
Fixpoint replace (old new : Ascii.ascii) (s : string) : string :=
  match s with
  | EmptyString => EmptyString
  | String c s' => String (if decide (c = old) then new else c) (replace old new s')
  end.

(** [s.title()]: a cased character is upper-cased when the character before
    it is not cased, and lower-cased when it is. *)
Fixpoint title_from (previous_is_cased : bool) (s : string) : string :=
  match s with
  | EmptyString => EmptyString
  | String c s' =>
      String (if previous_is_cased then to_lower c else to_upper c)
             (title_from (is_cased c) s')
  end.

Definition title (s : string) : string := title_from false s.

(** [s.lower()] *)
Fixpoint lower (s : string) : string :=
  match s with
  | EmptyString => EmptyString
  | String c s' => String (to_lower c) (lower s')
  end.

(** A parameter name: lower-case letters and underscores. *)
Fixpoint is_name (s : string) : bool :=
  match s with
  | EmptyString => true
  | String c s' => (is_lower c || bool_decide (c = "_"%char)) && is_name s'
  end.

End Str.

(** ** Dictionaries with their insertion order

    A Python [dict] iterates in insertion order, and assigning to a key that
    is present keeps the key's position.  [optimize_asv_parameters] returns
    a dictionary that [create_asv_app] iterates over, so here is the
    optimizer once more with the order kept. *)

Module Ordered.

Abbreviation odict := (list (string * value)).

(** [d[k] = v] *)
Definition setitem (k : string) (v : value) (d : odict) : odict :=
  if decide (k ∈ d.*1)
  then (λ kv, if decide (kv.1 = k) then (k, v) else kv) <$> d
  else d ++ [(k, v)].

(** [d.update(new)], which is also [{**d, **new}]. *)
Definition update (d new : odict) : odict :=
  foldl (λ acc kv, setitem kv.1 kv.2 acc) d new.

(** The display [{k1: v1, k2: v2, ...}]. *)
Definition display (entries : list (string * value)) : odict := update [] entries.

(** [d.items()] *)
Definition items (d : odict) : list (string * value) := d.

(** The dictionary without its order. *)
Definition to_dict (d : odict) : dict := list_to_map d.

Definition technique_params : gmap string odict :=
  <["SWV" := display [("frequency", PyInt 25); ("amplitude", PyFloat 0.025)]]>
  (<["DPV" := display [("amplitude", PyFloat 0.025); ("step_potential", PyFloat 0.004)]]>
  (<["LSV" := display [("scan_rate", PyFloat 0.05)]]> ∅)).

Definition optimize_asv_parameters (data : DataFrame) (metal technique : string)
    : result odict :=
  potential ← getitem data "Potential";
  current ← getitem data "Current";
  defaults ← getitem technique_params technique;
  processed_current ←
    apply_technique potential current technique (to_dict defaults);
  defaults ← getitem technique_params technique;
  Ok (update (display [("deposition_potential", PyFloat (-1.2));
                       ("deposition_time", PyInt 120)])
             defaults).

End Ordered.

(** ** Values and store side by side *)

Module Layout.

(** A run over the store shows the result [r] of the value layer: a
    returned array shows the returned elements, an exception is the same
    exception and leaves the store as it was. *)
Definition shows (h : Mem.heap) (run : result Mem.array * Mem.heap)
    (r : result ndarray) : Prop :=
  match run.1 with
  | Ok out => r = Ok (Mem.contents run.2 out)
  | Raise e => r = Raise e ∧ run.2 = h
  end.

End Layout.

(** ** [create_asv_app]: the Streamlit page

    A run of the script is modelled by the Streamlit calls it makes, in
    order; what the widgets answer is the session. *)

Module Ui.

(** Where a call renders. *)
Inductive place : Type :=
| Main
| Sidebar
| Column (i : nat).

(** [go.Scatter(x=..., y=..., name=...)] and the figure with its layout. *)
Record scatter : Type := Scatter {
  x : ndarray;
  y : ndarray;
  name : string
}.

Record figure : Type := Figure {
  traces : list scatter;
  title : string;
  xaxis_title : string;
  yaxis_title : string
}.

(** What the [try] block can raise: an exception of the processing core,
    whatever [pd.read_csv] raises on a file it cannot read, and the
    [TypeError] of [len(None)]. *)
Inductive failure : Type :=
| Raised (e : exn)
| ReadError (why : string)
| TypeError_len_None.

(** The second argument of [st.metric]: [f"{value:.3f}"] for a [float], the
    value itself otherwise. *)
Inductive shown : Type :=
| Fixed3 (f : float)
| Plain (z : Z).

(** The argument of [st.error]: [f"Error processing file: {str(e)}"], kept
    by its exception, or a literal. *)
Inductive message : Type :=
| ErrorProcessingFile (e : failure)
| Text (s : string).

(** The Streamlit calls of the script. *)
Inductive call : Type :=
| st_title (s : string)
| st_selectbox (label : string) (options : list string)
| st_header (s : string)
| st_slider (label : string) (min_value max_value default step : value)
| st_multiselect (label : string) (options : list string)
| st_file_uploader (label : string) (type : list string)
| st_subheader (s : string)
| st_columns (n : nat)
| st_plotly_chart (fig : figure)
| st_write (s : string)
| st_metric (label : string) (value : shown)
| st_error (msg : message).

Abbreviation trace := (list (place * call)).

(** The state of the widgets, by label, and the uploaded file as
    [pd.read_csv] reads it: a data frame, or the reason of its exception. *)
Record session : Type := Session {
  selectbox_at : string → string;
  slider_at : string → value;
  multiselect_at : string → list string;
  file_at : string → option (string + DataFrame)
}.

(** A piece of the script: how it ends and what it has rendered. *)
Inductive outcome (A : Type) : Type :=
| Done (a : A)
| Failed (e : failure).
Global Arguments Done {A} a.
Global Arguments Failed {A} e.

Definition UI (A : Type) : Type := outcome A * trace.

Global Instance UI_ret : MRet UI := λ A a, (Done a, []).
Global Instance UI_bind : MBind UI := λ A B f m,
  match m with
  | (Done a, t) => let r := f a in (r.1, t ++ r.2)
  | (Failed e, t) => (Failed e, t)
  end.

Definition emit (p : place) (c : call) : UI unit := (Done (), [(p, c)]).

Definition fail {A} (e : failure) : UI A := (Failed e, []).

(** A call into the processing core. *)
Definition core {A} (r : result A) : UI A :=
  match r with
  | Ok a => mret a
  | Raise e => fail (Raised e)
  end.

(** [try: body except Exception as e: handler(e)] *)
Definition try_except (body : UI unit) (handler : failure → UI unit) : UI unit :=
  match body with
  | (Done a, t) => (Done a, t)
  | (Failed e, t) => let r := handler e in (r.1, t ++ r.2)
  end.

(** [for a in l: body(a)] *)
Fixpoint for_each {A} (l : list A) (body : A → UI unit) : UI unit :=
  match l with
  | [] => mret ()
  | a :: l' => _ ← body a; for_each l' body
  end.

(** The widgets render and answer. *)
Definition selectbox (s : session) (label : string) (options : list string)
    : UI string :=
  (Done (selectbox_at s label), [(Main, st_selectbox label options)]).

Definition slider (s : session) (p : place) (label : string)
    (min_value max_value default step : value) : UI value :=
  (Done (slider_at s label),
   [(p, st_slider label min_value max_value default step)]).

Definition multiselect (s : session) (label : string) (options : list string)
    : UI (list string) :=
  (Done (multiselect_at s label), [(Main, st_multiselect label options)]).

Definition file_uploader (s : session) (label : string) (type : list string)
    : UI (option (string + DataFrame)) :=
  (Done (file_at s label), [(Main, st_file_uploader label type)]).

(** [pd.read_csv(uploaded_file)] *)
Definition read_csv (file : string + DataFrame) : UI DataFrame :=
  match file with
  | inl why => fail (ReadError why)
  | inr data => mret data
  end.

Definition format_value (v : value) : shown :=
  match v with
  | PyFloat f => Fixed3 f
  | PyInt z => Plain z
  end.

(** Lines 63-82: the sidebar, giving [common_params] and
    [technique_params]. *)
Definition sidebar (s : session) (technique : string) : UI (dict * dict) :=
  _ ← emit Sidebar (st_header ("ASV Parameters (" +:+ technique +:+ ")"));
  deposition_potential ←
    slider s Sidebar "Deposition Potential (V)"
      (PyFloat (-1.5)) (PyFloat 0.0) (PyFloat (-1.2)) (PyFloat 0.1);
  deposition_time ←
    slider s Sidebar "Deposition Time (s)"
      (PyInt 0) (PyInt 600) (PyInt 120) (PyInt 30);
  let common_params : dict :=
    <["deposition_time" := deposition_time]>
    (<["deposition_potential" := deposition_potential]> ∅) in
  technique_params ←
    (if decide (technique = "LSV") then
       scan_rate ←
         slider s Sidebar "Scan Rate (V/s)"
           (PyFloat 0.01) (PyFloat 0.5) (PyFloat 0.05) (PyFloat 0.01);
       mret (<["scan_rate" := scan_rate]> (∅ : dict))
     else if decide (technique = "DPV") then
       step_potential ←
         slider s Sidebar "Step Potential (V)"
           (PyFloat 0.001) (PyFloat 0.01) (PyFloat 0.004) (PyFloat 0.001);
       amplitude ←
         slider s Sidebar "Amplitude (V)"
           (PyFloat 0.01) (PyFloat 0.1) (PyFloat 0.025) (PyFloat 0.005);
       mret (unpack_into
               (<["amplitude" := amplitude]>
               (<["step_potential" := step_potential]> ∅))
               (∅ : dict))
     else if decide (technique = "SWV") then
       frequency ←
         slider s Sidebar "Frequency (Hz)"
           (PyInt 10) (PyInt 100) (PyInt 25) (PyInt 5);
       amplitude ←
         slider s Sidebar "Amplitude (V)"
           (PyFloat 0.01) (PyFloat 0.1) (PyFloat 0.025) (PyFloat 0.005);
       mret (unpack_into
               (<["amplitude" := amplitude]>
               (<["frequency" := frequency]> ∅))
               (∅ : dict))
     else mret (∅ : dict));
  mret (common_params, technique_params).

(** Lines 59-87: everything before the [if]. *)
Definition widgets (s : session)
    : UI (string * dict * dict * list string * option (string + DataFrame)) :=
  _ ← emit Main (st_title "ASV Parameter Optimization");
  technique ← selectbox s "Select Technique" ["LSV"; "DPV"; "SWV"];
  params ← sidebar s technique;
  let metals := ["Pb"; "Cd"; "Cu"; "Hg"; "Zn"] in
  selected_metals ← multiselect s "Select Metals" metals;
  uploaded_file ←
    file_uploader s ("Upload " +:+ technique +:+ " Data (CSV)") ["csv"];
  mret (technique, params.1, params.2, selected_metals, uploaded_file).

(** Lines 95-123: the body of the loop over the selected metals. *)
Definition analyse (technique : string) (params : dict) (data : DataFrame)
    (metal : string) : UI unit :=
  _ ← emit Main (st_subheader (metal +:+ " Analysis (" +:+ technique +:+ ")"));
  potential ← core (getitem data "Potential");
  current ← core (getitem data "Current");
  processed_data ← core (apply_technique potential current technique params);
  _ ← emit Main (st_columns 2);
  match processed_data with
  | None => fail TypeError_len_None
  | Some processed_data =>
      let fig :=
        Figure [Scatter potential current "Raw Data";
                Scatter (take (length processed_data) potential) processed_data
                        (technique +:+ " Processed")]
               (metal +:+ " " +:+ technique +:+ " Voltammogram")
               "Potential (V)" "Current (µA)" in
      _ ← emit (Column 0) (st_plotly_chart fig);
      optimal_params ← core (Ordered.optimize_asv_parameters data metal technique);
      _ ← emit (Column 1) (st_write "Optimal Parameters:");
      _ ← for_each (Ordered.items optimal_params) (λ item,
            emit (Column 1)
                 (st_metric (Str.title (Str.replace "_" " " item.1))
                            (format_value item.2)));
      emit Main (st_write "---")
  end.

(** Lines 125-127: the handler. *)
Definition report (e : failure) : UI unit :=
  _ ← emit Main (st_error (ErrorProcessingFile e));
  emit Main (st_error
    (Text "Please ensure CSV has 'Potential' and 'Current' columns")).

(** [create_asv_app] *)
Definition create_asv_app (s : session) : UI unit :=
  w ← widgets s;
  let '(technique, common_params, technique_params, selected_metals,
        uploaded_file) := w in
  match uploaded_file, selected_metals with
  | Some file, _ :: _ =>
      try_except
        (data ← read_csv file;
         let params := unpack_into technique_params common_params in
         for_each selected_metals (analyse technique params data))
        report
  | _, _ => mret ()
  end.

(** The calls that only draw the input widgets and the headings above
    them. *)
Definition is_widget (c : call) : bool :=
  match c with
  | st_title _ | st_selectbox _ _ | st_header _ | st_slider _ _ _ _ _
  | st_multiselect _ _ | st_file_uploader _ _ => true
  | _ => false
  end.

(** Every trace of a chart has as many x values as y values. *)
Definition balanced (c : call) : Prop :=
  match c with
  | st_plotly_chart fig => Forall (λ sc, length (x sc) = length (y sc)) (traces fig)
  | _ => True
  end.

(** The sliders stand where the script's [value] arguments put them, as
    on the first run of a session. *)
Definition first_run (s : session) : Prop :=
  slider_at s "Deposition Potential (V)" = PyFloat (-1.2) ∧
  slider_at s "Deposition Time (s)" = PyInt 120 ∧
  slider_at s "Scan Rate (V/s)" = PyFloat 0.05 ∧
  slider_at s "Step Potential (V)" = PyFloat 0.004 ∧
  slider_at s "Amplitude (V)" = PyFloat 0.025 ∧
  slider_at s "Frequency (Hz)" = PyInt 25.

(** The page section of one metal when everything succeeds. *)
Definition section (technique : string) (potential current processed : ndarray)
    (optimal_params : Ordered.odict) (metal : string) : trace :=
  [(Main, st_subheader (metal +:+ " Analysis (" +:+ technique +:+ ")"));
   (Main, st_columns 2);
   (Column 0, st_plotly_chart
      (Figure [Scatter potential current "Raw Data";
               Scatter (take (length processed) potential) processed
                       (technique +:+ " Processed")]
              (metal +:+ " " +:+ technique +:+ " Voltammogram")
              "Potential (V)" "Current (µA)"));
   (Column 1, st_write "Optimal Parameters:")]
  ++ ((λ item, (Column 1, st_metric (Str.title (Str.replace "_" " " item.1))
                                    (format_value item.2)))
        <$> optimal_params)
  ++ [(Main, st_write "---")].

End Ui.

Module UiSample.

(** A first run with DPV chosen, two metals selected and the sweep of the
    specification uploaded. *)
Definition defaults (label : string) : value :=
  if decide (label = "Deposition Potential (V)") then PyFloat (-1.2)
  else if decide (label = "Deposition Time (s)") then PyInt 120
  else if decide (label = "Scan Rate (V/s)") then PyFloat 0.05
  else if decide (label = "Step Potential (V)") then PyFloat 0.004
  else if decide (label = "Amplitude (V)") then PyFloat 0.025
  else PyInt 25.

Definition run (technique : string) (metals : list string)
    (file : option (string + DataFrame)) : Ui.session :=
  Ui.Session (λ _, technique) defaults (λ _, metals) (λ _, file).

Definition dpv_run : Ui.session :=
  run "DPV" ["Pb"; "Cd"] (Some (inr Sample.sweep4)).

(** The same with five samples, which DPV cannot pair up. *)
Definition odd_run : Ui.session :=
  run "DPV" ["Pb"; "Cd"] (Some (inr Sample.sweep5)).

(** No file yet. *)
Definition idle_run : Ui.session := run "SWV" ["Pb"] None.

(** A file that is no CSV. *)
Definition unreadable_run : Ui.session :=
  run "LSV" ["Zn"] (Some (inl "No columns to parse from file")).

End UiSample.

(** * Facts *)

(** ** Slicing and broadcasting *)

Section numpy_facts.
Implicit Types (a b : ndarray) (i n start step : nat).

Lemma omap_total {A B} (f : A → option B) (l : list A) :
  (∀ x, x ∈ l → is_Some (f x)) →
  Forall2 (λ x y, f x = Some y) l (omap f l).
Proof.
  induction l as [|x l IH]; intros Hf; simpl; [constructor|].
  destruct (Hf x) as [y Hy]; [left|].
  rewrite Hy. constructor; [done|].
  apply IH. intros z Hz. apply Hf. by right.
Qed.

Lemma omap_seq_length {B} (f : nat → option B) n :
  (∀ i, i < n → is_Some (f i)) → length (omap f (seq 0 n)) = n.
Proof.
  intros Hf. transitivity (length (seq 0 n)); [|apply length_seq].
  symmetry. eapply Forall2_length, omap_total.
  intros i Hi%elem_of_seq. apply Hf. lia.
Qed.

Lemma omap_seq_lookup {B} (f : nat → option B) n i :
  (∀ j, j < n → is_Some (f j)) → i < n → omap f (seq 0 n) !! i = f i.
Proof.
  intros Hf Hi.
  assert (Forall2 (λ x y, f x = Some y) (seq 0 n) (omap f (seq 0 n))) as HF.
  { apply omap_total. intros j Hj%elem_of_seq. apply Hf. lia. }
  destruct (Forall2_lookup_l _ _ _ i i HF) as (y & Hy & Hfy).
  { apply lookup_seq. lia. }
  by rewrite Hy, Hfy.
Qed.

(** The indices of [a[start::step]] stay inside [a]. *)
Lemma slice_len_bound n start step i :
  0 < step → i < slice_len n start step → start + i * step < n.
Proof.
  unfold slice_len. intros Hstep Hi.
  assert (S i * step ≤ n - start + (step - 1)) as Hle.
  { etransitivity; [|apply (Nat.Div0.mul_div_le _ step)].
    rewrite (Nat.mul_comm step). apply Nat.mul_le_mono_r. lia. }
  simpl in Hle. lia.
Qed.

Lemma slice_len_even_0 k : slice_len (2 * k) 0 2 = k.
Proof.
  unfold slice_len. replace (2 * k - 0 + (2 - 1)) with (1 + k * 2) by lia.
  rewrite Nat.div_add by lia. reflexivity.
Qed.

Lemma slice_len_even_1 k : slice_len (2 * k) 1 2 = k.
Proof.
  destruct k as [|k]; [reflexivity|]. unfold slice_len.
  replace (2 * S k - 1 + (2 - 1)) with (0 + S k * 2) by lia.
  rewrite Nat.div_add by lia. reflexivity.
Qed.

Lemma slice_len_odd_0 k : slice_len (2 * k + 1) 0 2 = S k.
Proof.
  unfold slice_len. replace (2 * k + 1 - 0 + (2 - 1)) with (0 + S k * 2) by lia.
  rewrite Nat.div_add by lia. reflexivity.
Qed.

Lemma slice_len_odd_1 k : slice_len (2 * k + 1) 1 2 = k.
Proof.
  unfold slice_len. replace (2 * k + 1 - 1 + (2 - 1)) with (1 + k * 2) by lia.
  rewrite Nat.div_add by lia. reflexivity.
Qed.

Lemma slice_from_length start step a :
  0 < step → length (slice_from start step a) = slice_len (length a) start step.
Proof.
  intros Hstep. apply omap_seq_length. intros i Hi.
  apply lookup_lt_is_Some. by apply slice_len_bound.
Qed.

Lemma slice_from_lookup start step a i :
  0 < step → i < slice_len (length a) start step →
  slice_from start step a !! i = a !! (start + i * step).
Proof.
  intros Hstep Hi. unfold slice_from. rewrite omap_seq_lookup; [done| |done].
  intros j Hj. apply lookup_lt_is_Some. by apply slice_len_bound.
Qed.

Lemma broadcast_shape_same n : broadcast_shape n n = Some n.
Proof. unfold broadcast_shape. by rewrite decide_True. Qed.

Lemma broadcast_to_same a : broadcast_to a (length a) = a.
Proof. unfold broadcast_to. by rewrite decide_True. Qed.

(** Equal shapes: [-] is element-wise. *)
Lemma subtract_same_shape a b :
  length a = length b → subtract a b = Ok (zip_with subtract_scalar a b).
Proof.
  intros Hab. unfold subtract. rewrite Hab, broadcast_shape_same.
  by rewrite <- Hab at 1; rewrite !broadcast_to_same.
Qed.

(** Two shapes that differ and are both other than [(1,)] do not broadcast. *)
Lemma subtract_mismatch a b :
  length a ≠ length b → length a ≠ 1 → length b ≠ 1 →
  subtract a b = Raise (ValueError_broadcast (length a) (length b)).
Proof.
  intros ???. unfold subtract, broadcast_shape.
  by rewrite !decide_False.
Qed.

End numpy_facts.

(** ** The differencing processors *)

Section differencing.
Implicit Types (potential current : ndarray) (params : dict).

Lemma getitem_is_Some {V} (d : gmap string V) k :
  is_Some (d !! k) → ∃ v, getitem d k = Ok v.
Proof. intros [v Hv]. exists v. unfold getitem. by rewrite Hv. Qed.

Lemma process_dpv_unfold potential current params :
  dpv_schema params →
  process_dpv potential current params =
  subtract (slice_from 0 2 current) (slice_from 1 2 current).
Proof.
  intros [[v1 H1]%getitem_is_Some [v2 H2]%getitem_is_Some].
  unfold process_dpv. rewrite H1, H2. simpl.
  by destruct (subtract _ _).
Qed.

Lemma process_swv_unfold potential current params :
  swv_schema params →
  process_swv potential current params =
  subtract (slice_from 0 2 current) (slice_from 1 2 current).
Proof.
  intros [[v1 H1]%getitem_is_Some [v2 H2]%getitem_is_Some].
  unfold process_swv. rewrite H1, H2. simpl.
  by destruct (subtract _ _).
Qed.

Lemma apply_technique_dpv potential current params :
  apply_technique potential current "DPV" params =
  signal ← process_dpv potential current params; Ok (Some signal).
Proof. reflexivity. Qed.

Lemma apply_technique_swv potential current params :
  apply_technique potential current "SWV" params =
  signal ← process_swv potential current params; Ok (Some signal).
Proof. reflexivity. Qed.

Lemma apply_technique_lsv potential current params :
  apply_technique potential current "LSV" params =
  signal ← process_lsv potential current params; Ok (Some signal).
Proof. reflexivity. Qed.

(** An even number of samples: [k] pairs, one output element per pair. *)
Lemma difference_of_pairs current k :
  length current = 2 * k →
  ∃ out,
    subtract (slice_from 0 2 current) (slice_from 1 2 current) = Ok out ∧
    length out = k ∧
    ∀ i, i < k →
      ∃ x y, current !! (2 * i) = Some x ∧ current !! (2 * i + 1) = Some y ∧
             out !! i = Some (subtract_scalar x y).
Proof.
  intros Hlen.
  assert (length (slice_from 0 2 current) = k) as Hf.
  { rewrite slice_from_length, Hlen by lia. apply slice_len_even_0. }
  assert (length (slice_from 1 2 current) = k) as Hb.
  { rewrite slice_from_length, Hlen by lia. apply slice_len_even_1. }
  eexists. split; [apply subtract_same_shape; congruence|].
  split; [rewrite length_zip_with; lia|].
  intros i Hi.
  destruct (lookup_lt_is_Some_2 current (2 * i)) as [x Hx]; [lia|].
  destruct (lookup_lt_is_Some_2 current (2 * i + 1)) as [y Hy]; [lia|].
  exists x, y. split_and!; [done..|].
  rewrite lookup_zip_with.
  rewrite !slice_from_lookup
    by (try lia; rewrite Hlen, ?slice_len_even_0, ?slice_len_even_1; done).
  replace (0 + i * 2) with (2 * i) by lia.
  replace (1 + i * 2) with (2 * i + 1) by lia.
  by rewrite Hx, Hy.
Qed.

(** An odd number of samples, five or more: the two halves have different
    sizes, neither of them 1, and [-] raises. *)
Lemma difference_of_odd current k :
  length current = 2 * k + 1 → 2 ≤ k →
  subtract (slice_from 0 2 current) (slice_from 1 2 current) =
  Raise (ValueError_broadcast (S k) k).
Proof.
  intros Hlen Hk.
  assert (length (slice_from 0 2 current) = S k) as Hf.
  { rewrite slice_from_length, Hlen by lia. apply slice_len_odd_0. }
  assert (length (slice_from 1 2 current) = k) as Hb.
  { rewrite slice_from_length, Hlen by lia. apply slice_len_odd_1. }
  rewrite subtract_mismatch by lia. by rewrite Hf, Hb.
Qed.

(** Fewer than two samples: an empty array. *)
Lemma difference_of_short current :
  length current < 2 →
  subtract (slice_from 0 2 current) (slice_from 1 2 current) = Ok [].
Proof.
  destruct current as [|x [|y l]]; simpl; intros; [done..|lia].
Qed.

(** Three samples: the single backward sample is broadcast against the two
    forward samples. *)
Lemma difference_of_three x0 x1 x2 :
  subtract (slice_from 0 2 [x0; x1; x2]) (slice_from 1 2 [x0; x1; x2]) =
  Ok [subtract_scalar x0 x1; subtract_scalar x2 x1].
Proof. reflexivity. Qed.

End differencing.

(** ** The smoothing processor *)

Section smoothing.
Implicit Types (x y : list float) (current potential : ndarray).

Lemma correlate1d_length x w : length (correlate1d x w) = length x.
Proof. unfold correlate1d. by rewrite length_map, length_seq. Qed.

Lemma convolve1d_length x w : length (convolve1d x w) = length x.
Proof. apply correlate1d_length. Qed.

Lemma fit_edge_length x ws we is_ ie y out :
  Scipy.fit_edge x ws we is_ ie y = Ok out → length out = length y.
Proof.
  unfold Scipy.fit_edge. destruct (fit_edge_values _ _ _ _ _); [simpl|done].
  intros [= <-]. apply length_inserts.
Qed.

Lemma fit_edges_polyfit_length x y out :
  Scipy.fit_edges_polyfit x y = Ok out → length out = length y.
Proof.
  unfold Scipy.fit_edges_polyfit.
  destruct (Scipy.fit_edge x 0 _ _ _ y) as [y1|] eqn:H1; [simpl|done].
  intros H2. apply fit_edge_length in H1, H2. congruence.
Qed.

Lemma polyfit_finite xs :
  forallb PrimFloat.is_finite xs = true → ∃ p, polyfit xs = Ok p.
Proof. intros Hfin. unfold polyfit. rewrite Hfin. by eexists. Qed.

Lemma polyfit_not_finite xs :
  forallb PrimFloat.is_finite xs = false → polyfit xs = Raise LinAlgError.
Proof. intros Hfin. unfold polyfit. by rewrite Hfin. Qed.

(** The window of the second edge fit is the last [window_length] samples. *)
Lemma last_window x :
  window_length ≤ length x →
  take (length x - (length x - window_length)) (drop (length x - window_length) x) =
  drop (length x - window_length) x.
Proof. intros Hn. apply take_ge. rewrite length_drop. lia. Qed.

(** With finite samples at both ends the edge fits return. *)
Lemma fit_edges_polyfit_finite x y :
  window_length ≤ length x →
  forallb PrimFloat.is_finite (edge_samples x) = true →
  ∃ out, Scipy.fit_edges_polyfit x y = Ok out.
Proof.
  intros Hn Hfin. unfold edge_samples in Hfin.
  rewrite forallb_app in Hfin. apply andb_true_iff in Hfin as [Hfirst Hlast].
  unfold Scipy.fit_edges_polyfit, Scipy.fit_edge, fit_edge_values.
  change (take (window_length - 0) (drop 0 x)) with (take window_length x).
  destruct (polyfit_finite _ Hfirst) as [p1 ->]. simpl.
  rewrite last_window by done.
  destruct (polyfit_finite _ Hlast) as [p2 ->]. simpl. by eexists.
Qed.

(** With a NaN or an infinity among them one of the fits raises. *)
Lemma fit_edges_polyfit_not_finite x y :
  window_length ≤ length x →
  forallb PrimFloat.is_finite (edge_samples x) = false →
  Scipy.fit_edges_polyfit x y = Raise LinAlgError.
Proof.
  intros Hn Hfin. unfold edge_samples in Hfin. rewrite forallb_app in Hfin.
  unfold Scipy.fit_edges_polyfit, Scipy.fit_edge, fit_edge_values.
  change (take (window_length - 0) (drop 0 x)) with (take window_length x).
  destruct (forallb _ (take window_length x)) eqn:Hfirst.
  - destruct (polyfit_finite _ Hfirst) as [p1 ->]. simpl.
    rewrite last_window by done. simpl in Hfin.
    by rewrite (polyfit_not_finite _ Hfin).
  - by rewrite (polyfit_not_finite _ Hfirst).
Qed.

Lemma savgol_filter_short current :
  length current < window_length →
  savgol_filter current = Raise (ValueError_window window_length (length current)).
Proof.
  intros Hn. unfold savgol_filter. rewrite length_fmap.
  by rewrite decide_True.
Qed.

(** A returned array has the size of the input. *)
Lemma savgol_filter_length current out :
  savgol_filter current = Ok out → length out = length current.
Proof.
  unfold savgol_filter. case_decide; [done|].
  destruct (Scipy.fit_edges_polyfit _ _) as [y|] eqn:Hy; [simpl|done].
  intros [= <-]. apply fit_edges_polyfit_length in Hy.
  by rewrite length_fmap, Hy, convolve1d_length, length_fmap.
Qed.

Lemma savgol_filter_long current :
  window_length ≤ length current →
  edges_finite current = true →
  ∃ out, savgol_filter current = Ok out ∧ length out = length current.
Proof.
  intros Hn Hfin.
  assert (∃ out, savgol_filter current = Ok out) as [out Hout].
  { unfold savgol_filter. rewrite length_fmap. rewrite decide_False by lia.
    destruct (fit_edges_polyfit_finite (to_float64 <$> current)
                (convolve1d (to_float64 <$> current) savgol_coeffs))
      as [y ->]; [by rewrite length_fmap|done|]. by eexists. }
  exists out. split; [done|]. by apply savgol_filter_length.
Qed.

Lemma savgol_filter_not_finite current :
  window_length ≤ length current →
  edges_finite current = false →
  savgol_filter current = Raise LinAlgError.
Proof.
  intros Hn Hfin. unfold savgol_filter. rewrite length_fmap.
  rewrite decide_False by lia.
  by rewrite fit_edges_polyfit_not_finite by (by rewrite ?length_fmap).
Qed.

Lemma process_lsv_unfold potential current params :
  lsv_schema params →
  process_lsv potential current params = savgol_filter current.
Proof.
  intros [v Hv]%getitem_is_Some. unfold process_lsv. rewrite Hv. simpl.
  by destruct (savgol_filter _).
Qed.

End smoothing.

(** ** The optimizer *)

Section optimizer.
Implicit Types (data : DataFrame) (metal technique : string).

Lemma technique_params_lsv : technique_params !! "LSV" = Some lsv_defaults.
Proof. reflexivity. Qed.

Lemma technique_params_dpv : technique_params !! "DPV" = Some dpv_defaults.
Proof. reflexivity. Qed.

Lemma technique_params_swv : technique_params !! "SWV" = Some swv_defaults.
Proof. reflexivity. Qed.

Lemma technique_params_other technique :
  technique ≠ "LSV" → technique ≠ "DPV" → technique ≠ "SWV" →
  technique_params !! technique = None.
Proof.
  intros. unfold technique_params.
  by rewrite !lookup_insert_ne, lookup_empty.
Qed.

(** Past the three lookups the optimizer is the dispatcher call followed by
    the dictionary display. *)
Lemma optimize_unfold data metal technique potential current defaults :
  data !! "Potential" = Some potential →
  data !! "Current" = Some current →
  technique_params !! technique = Some defaults →
  optimize_asv_parameters data metal technique =
  processed_current ← apply_technique potential current technique defaults;
  Ok (unpack_into defaults
        (<["deposition_time" := PyInt 120]>
        (<["deposition_potential" := PyFloat (-1.2)]> ∅))).
Proof.
  intros Hp Hc Ht. unfold optimize_asv_parameters, getitem.
  rewrite Hp, Hc, Ht. simpl.
  by destruct (apply_technique _ _ _ _).
Qed.

Lemma schema_lsv_defaults : lsv_schema lsv_defaults.
Proof. by eexists. Qed.

Lemma schema_dpv_defaults : dpv_schema dpv_defaults.
Proof. split; by eexists. Qed.

Lemma schema_swv_defaults : swv_schema swv_defaults.
Proof. split; by eexists. Qed.

End optimizer.

(** ** The store *)

Section store.
Import Mem.
Implicit Types (h : heap) (a y : array) (l : loc).

Lemma bind_run {A B} (m : M A) (f : A → M B) h :
  (m ≫= f) h =
  match m h with
  | (Ok v, h') => f v h'
  | (Raise e, h') => (Raise e, h')
  end.
Proof. reflexivity. Qed.

Lemma lookup_or_raise_bind {V B} (d : gmap string V) k (f : V → M B) h :
  (lookup_or_raise d k ≫= f) h =
  match d !! k with
  | Some v => f v h
  | None => (Raise (KeyError k), h)
  end.
Proof.
  rewrite bind_run. unfold lookup_or_raise, getitem.
  by destruct (d !! k).
Qed.

Lemma preserves_ret {A} (v : A) : preserves (mret v).
Proof. by intros h. Qed.

Lemma preserves_bind {A B} (m : M A) (f : A → M B) :
  preserves m → (∀ v, preserves (f v)) → preserves (m ≫= f).
Proof.
  intros Hm Hf h. rewrite bind_run. specialize (Hm h).
  destruct (m h) as [[v|e] h']; simpl in *; [|done].
  etransitivity; [exact Hm|apply Hf].
Qed.

Lemma preserves_lookup_or_raise {V} (d : gmap string V) k :
  preserves (lookup_or_raise d k).
Proof. by intros h. Qed.

Lemma alloc_fresh h : h !! fresh (dom h) = None.
Proof. apply not_elem_of_dom, is_fresh. Qed.

Lemma preserves_alloc xs : preserves (alloc xs).
Proof. intros h. apply insert_subseteq, alloc_fresh. Qed.

Lemma returns_fresh_alloc xs : returns_fresh (alloc xs).
Proof. intros h out [= <-]. apply is_fresh. Qed.

Lemma preserves_subtract a b : preserves (Mem.subtract a b).
Proof.
  intros h. unfold Mem.subtract.
  destruct (Numpy.subtract _ _); [apply preserves_alloc|done].
Qed.

Lemma returns_fresh_subtract a b : returns_fresh (Mem.subtract a b).
Proof.
  intros h out. unfold Mem.subtract.
  destruct (Numpy.subtract _ _); [apply returns_fresh_alloc|done].
Qed.

(** The in-place assignment touches the buffer of its target only. *)
Lemma writes_only_setitem_slice y start values :
  writes_only y (Mem.setitem_slice y start values).
Proof.
  intros h l Hl. unfold Mem.setitem_slice.
  destruct (h !! base y); simpl; [|done].
  by rewrite lookup_insert_ne.
Qed.

Lemma writes_only_bind {A B} y (m : M A) (f : A → M B) :
  writes_only y m → (∀ v, writes_only y (f v)) → writes_only y (m ≫= f).
Proof.
  intros Hm Hf h l Hl. rewrite bind_run. specialize (Hm h l Hl).
  destruct (m h) as [[v|e] h']; simpl in *; [|done].
  by rewrite Hf.
Qed.

Lemma writes_only_lift {A} y (r : result A) : writes_only y (lift r).
Proof. by intros h l Hl. Qed.

Lemma writes_only_fit_edge x ws we is_ ie y :
  writes_only y (Mem.fit_edge x ws we is_ ie y).
Proof.
  apply writes_only_bind; [apply writes_only_lift|intros values].
  apply writes_only_setitem_slice.
Qed.

Lemma writes_only_fit_edges_polyfit x y :
  writes_only y (Mem.fit_edges_polyfit x y).
Proof.
  apply writes_only_bind; [|intros _]; apply writes_only_fit_edge.
Qed.

(** Releasing the buffer of [y] after a failure touches no other buffer. *)
Lemma writes_only_released_on_error {A} y (m : M A) :
  writes_only y m → writes_only y (released_on_error y m).
Proof.
  intros Hm h l Hl. unfold released_on_error. specialize (Hm h l Hl).
  destruct (m h) as [[v|e] h']; simpl in *; [done|].
  by rewrite lookup_delete_ne.
Qed.

(** A new array that is then written, and nothing else: every other buffer
    stays, and what is returned is the new array. *)
Lemma alloc_then_write xs (m : array → M unit) h :
  (∀ y, writes_only y (m y)) →
  (∀ l, l ≠ fresh (dom h) →
        ((y ← alloc xs; _ ← m y; mret y) h).2 !! l = h !! l) ∧
  (∀ out, ((y ← alloc xs; _ ← m y; mret y) h).1 = Ok out →
          base out = fresh (dom h)).
Proof.
  intros Hm. unfold mbind, M_bind, alloc.
  pose proof (Hm (Array (fresh (dom h)) 0 1 (length xs))
                 (<[fresh (dom h) := xs]> h)) as Hw.
  destruct (m _ _) as [[[]|e] h2]; simpl in *.
  - split; [|by intros out [= <-]].
    intros l Hl. rewrite Hw by done. by rewrite lookup_insert_ne.
  - split; [|done].
    intros l Hl. rewrite Hw by done. by rewrite lookup_insert_ne.
Qed.

(** [savgol_filter]: the one place with in-place writes.  They go to the
    buffer that [convolve1d] has just allocated, and so does the release
    when an edge fit raises. *)
Lemma savgol_filter_run x h :
  (∀ l, l ≠ fresh (dom h) → (Mem.savgol_filter x h).2 !! l = h !! l) ∧
  (∀ out, (Mem.savgol_filter x h).1 = Ok out → base out = fresh (dom h)).
Proof.
  unfold Mem.savgol_filter. rewrite length_fmap.
  destruct (decide (length (contents h x) < window_length)); [done|].
  apply (alloc_then_write _
           (λ y, released_on_error y
                   (fit_edges_polyfit (to_float64 <$> contents h x) y))).
  intros y. apply writes_only_released_on_error, writes_only_fit_edges_polyfit.
Qed.

Lemma preserves_savgol_filter x : preserves (Mem.savgol_filter x).
Proof.
  intros h. destruct (savgol_filter_run x h) as [Hother _].
  apply map_subseteq_spec. intros l buf Hl.
  rewrite Hother; [done|]. intros ->.
  by rewrite alloc_fresh in Hl.
Qed.

Lemma returns_fresh_savgol_filter x : returns_fresh (Mem.savgol_filter x).
Proof.
  intros h out Hout. destruct (savgol_filter_run x h) as [_ Hbase].
  rewrite (Hbase out Hout). apply is_fresh.
Qed.

End store.

Section frame.
Import Mem.
Implicit Types (h : heap) (a potential current : array) (params : dict).

Lemma returns_fresh_lookup_bind {V} (d : gmap string V) k (f : V → M array) :
  (∀ v, returns_fresh (f v)) → returns_fresh (lookup_or_raise d k ≫= f).
Proof.
  intros Hf h out. rewrite lookup_or_raise_bind.
  destruct (d !! k); [apply Hf|done].
Qed.

Lemma returns_fresh_bind_ret (m : M array) :
  returns_fresh m → returns_fresh (m ≫= mret).
Proof.
  intros Hm h out. rewrite bind_run. specialize (Hm h).
  destruct (m h) as [[v|e] h']; simpl in *; [|done].
  intros [= <-]. by apply Hm.
Qed.

Lemma preserves_process_lsv potential current params :
  preserves (Mem.process_lsv potential current params).
Proof.
  apply preserves_bind; [apply preserves_lookup_or_raise|intros _].
  apply preserves_bind; [apply preserves_savgol_filter|intros y].
  apply preserves_ret.
Qed.

Lemma preserves_process_dpv potential current params :
  preserves (Mem.process_dpv potential current params).
Proof.
  do 2 (apply preserves_bind; [apply preserves_lookup_or_raise|intros _]).
  apply preserves_bind; [apply preserves_subtract|intros y].
  apply preserves_ret.
Qed.

Lemma preserves_process_swv potential current params :
  preserves (Mem.process_swv potential current params).
Proof.
  do 2 (apply preserves_bind; [apply preserves_lookup_or_raise|intros _]).
  apply preserves_bind; [apply preserves_subtract|intros y].
  apply preserves_ret.
Qed.

Lemma preserves_apply_technique potential current technique params :
  preserves (Mem.apply_technique potential current technique params).
Proof.
  unfold Mem.apply_technique. repeat case_decide;
    [apply preserves_bind;
       [first [apply preserves_process_lsv | apply preserves_process_dpv
              | apply preserves_process_swv]
       |intros y; apply preserves_ret]..
    |apply preserves_ret].
Qed.

Lemma preserves_optimize_asv_parameters (columns : gmap string array)
    (metal technique : string) :
  preserves (Mem.optimize_asv_parameters columns metal technique).
Proof.
  apply preserves_bind; [apply preserves_lookup_or_raise|intros p].
  apply preserves_bind; [apply preserves_lookup_or_raise|intros c].
  apply preserves_bind; [apply preserves_lookup_or_raise|intros d].
  apply preserves_bind; [apply preserves_apply_technique|intros r].
  apply preserves_bind; [apply preserves_lookup_or_raise|intros d'].
  apply preserves_ret.
Qed.

Lemma returns_fresh_process_lsv potential current params :
  returns_fresh (Mem.process_lsv potential current params).
Proof.
  apply returns_fresh_lookup_bind. intros _.
  apply returns_fresh_bind_ret, returns_fresh_savgol_filter.
Qed.

Lemma returns_fresh_process_dpv potential current params :
  returns_fresh (Mem.process_dpv potential current params).
Proof.
  do 2 (apply returns_fresh_lookup_bind; intros _).
  apply returns_fresh_bind_ret, returns_fresh_subtract.
Qed.

Lemma returns_fresh_process_swv potential current params :
  returns_fresh (Mem.process_swv potential current params).
Proof.
  do 2 (apply returns_fresh_lookup_bind; intros _).
  apply returns_fresh_bind_ret, returns_fresh_subtract.
Qed.

Lemma returns_fresh_apply_technique potential current technique params h out :
  (Mem.apply_technique potential current technique params h).1 = Ok (Some out) →
  base out ∉ dom h.
Proof.
  unfold Mem.apply_technique. repeat case_decide; rewrite ?bind_run.
  - pose proof (returns_fresh_process_lsv potential current params h) as Hf.
    destruct (Mem.process_lsv _ _ _ h) as [[v|e] h']; simpl in *; [|done].
    intros [= <-]. by apply Hf.
  - pose proof (returns_fresh_process_dpv potential current params h) as Hf.
    destruct (Mem.process_dpv _ _ _ h) as [[v|e] h']; simpl in *; [|done].
    intros [= <-]. by apply Hf.
  - pose proof (returns_fresh_process_swv potential current params h) as Hf.
    destruct (Mem.process_swv _ _ _ h) as [[v|e] h']; simpl in *; [|done].
    intros [= <-]. by apply Hf.
  - done.
Qed.

(** A buffer that stays keeps every array on it as it was. *)
Lemma unchanged_of_subseteq h h' a :
  h ⊆ h' → alive h a → unchanged h h' a.
Proof.
  intros Hsub (buf & Hbuf & _).
  assert (h' !! base a = h !! base a) as Heq.
  { rewrite Hbuf. by eapply lookup_weaken. }
  split; [done|]. unfold contents. by rewrite Heq.
Qed.

End frame.

(** ** The store layer computes what the value layer computes *)

Section refinement.
Import Mem.
Implicit Types (h : heap) (a x potential current : array) (params : dict).

Lemma omap_ext_in {A B} (f g : A → option B) (l : list A) :
  (∀ z, z ∈ l → f z = g z) → omap f l = omap g l.
Proof.
  induction l as [|z l IH]; intros Hfg; csimpl; [done|].
  rewrite (Hfg z) by left. rewrite IH; [done|].
  intros z' Hz. apply Hfg. by right.
Qed.

Lemma contents_length h a : alive h a → length (contents h a) = count a.
Proof.
  intros (buf & Hbuf & Hin). apply omap_seq_length. intros i Hi.
  rewrite Hbuf. simpl. apply lookup_lt_is_Some. by apply Hin.
Qed.

Lemma contents_lookup h a buf i :
  h !! base a = Some buf → alive h a → i < count a →
  contents h a !! i = buf !! (offset a + i * stride a).
Proof.
  intros Hbuf (buf' & Hbuf' & Hin) Hi. simplify_eq.
  unfold contents. rewrite omap_seq_lookup; [by rewrite Hbuf| |done].
  intros j Hj. rewrite Hbuf. simpl. apply lookup_lt_is_Some. by apply Hin.
Qed.

(** A view shows the slice of what its base array shows. *)
Lemma contents_slice_from h a start step :
  alive h a → 0 < step →
  contents h (Mem.slice_from start step a) =
  Numpy.slice_from start step (contents h a).
Proof.
  intros Ha Hstep. pose proof Ha as (buf & Hbuf & Hin).
  unfold Numpy.slice_from. rewrite (contents_length h a Ha).
  unfold contents at 1. simpl.
  apply omap_ext_in. intros i Hi%elem_of_seq.
  assert (start + i * step < count a) as Hidx
    by (apply slice_len_bound; [done|lia]).
  rewrite (contents_lookup h a buf) by done.
  rewrite Hbuf. simpl. f_equal. lia.
Qed.

Lemma list_fmap_inserts {A B} (f : A → B) i (k l : list A) :
  f <$> list_inserts i k l = list_inserts i (f <$> k) (f <$> l).
Proof.
  revert i. induction k as [|y k IH]; intros i; simpl; [done|].
  by rewrite list_fmap_insert, IH.
Qed.

(** Writing the values one by one, left to right, through a contiguous
    window is the slice assignment of the value layer. *)
Lemma foldl_setitem {A} start c (values buf : list A) :
  foldl (λ b kv, <[0 + (start + kv.1) * 1 := kv.2]> b) buf
        (imap (λ k v, (c + k, v)) values) =
  list_inserts (start + c) values buf.
Proof.
  revert c buf. induction values as [|v values IH]; intros c buf; [done|].
  rewrite imap_cons. simpl.
  rewrite (imap_ext _ (λ k v, (S c + k, v))) by (intros; simpl; f_equal; lia).
  rewrite IH.
  replace (start + S c) with (S (start + c)) by lia.
  replace ((start + (c + 0)) * 1) with (start + c) by lia.
  symmetry. apply list_insert_inserts_lt. lia.
Qed.

Lemma setitem_slice_contiguous l n start values buf h :
  h !! l = Some buf →
  Mem.setitem_slice (Array l 0 1 n) start values h =
  (Ok (), <[l := Scipy.setitem_slice start values buf]> h).
Proof.
  intros Hbuf. unfold Mem.setitem_slice. simpl. rewrite Hbuf.
  do 2 f_equal. unfold Scipy.setitem_slice.
  transitivity (list_inserts (start + 0) values buf);
    [|by rewrite Nat.add_0_r].
  by rewrite <- foldl_setitem.
Qed.

(** An edge fit on the store does to the buffer of a contiguous [y] what
    the edge fit on values does to the elements, and raises when it does. *)
Lemma fit_edge_refines xs ws we is_ ie l n buf h :
  h !! l = Some (Float64 <$> buf) →
  Mem.fit_edge xs ws we is_ ie (Array l 0 1 n) h =
  match Scipy.fit_edge xs ws we is_ ie buf with
  | Ok buf' => (Ok (), <[l := Float64 <$> buf']> h)
  | Raise e => (Raise e, h)
  end.
Proof.
  intros Hbuf. unfold Mem.fit_edge, Scipy.fit_edge, lift. rewrite bind_run.
  destruct (fit_edge_values _ _ _ _ _) as [values|e]; [simpl|done].
  rewrite (setitem_slice_contiguous _ _ _ _ _ _ Hbuf).
  unfold Scipy.setitem_slice. by rewrite list_fmap_inserts.
Qed.

Lemma fit_edges_polyfit_refines xs l n buf h :
  h !! l = Some (Float64 <$> buf) →
  Mem.fit_edges_polyfit xs (Array l 0 1 n) h =
  match Scipy.fit_edges_polyfit xs buf with
  | Ok buf' => (Ok (), <[l := Float64 <$> buf']> h)
  | Raise e =>
      (Raise e,
       match Scipy.fit_edge xs 0 window_length 0 (window_length / 2) buf with
       | Ok buf1 => <[l := Float64 <$> buf1]> h
       | Raise _ => h
       end)
  end.
Proof.
  intros Hbuf. unfold Mem.fit_edges_polyfit, Scipy.fit_edges_polyfit.
  rewrite bind_run, (fit_edge_refines _ _ _ _ _ _ _ _ _ Hbuf).
  destruct (Scipy.fit_edge xs 0 _ _ _ buf) as [buf1|e]; [simpl|done].
  rewrite (fit_edge_refines _ _ _ _ _ _ _ buf1) by apply lookup_insert_eq.
  destruct (Scipy.fit_edge _ _ _ _ _ buf1); [|done].
  by rewrite insert_insert_eq.
Qed.

Lemma savgol_filter_refines x h :
  Mem.savgol_filter x h = returning (Scipy.savgol_filter (contents h x)) h.
Proof.
  unfold Mem.savgol_filter, Scipy.savgol_filter.
  case_decide; [done|].
  rewrite bind_run. unfold alloc at 1. cbv beta iota zeta.
  rewrite bind_run. unfold released_on_error.
  rewrite (fit_edges_polyfit_refines _ _ _
             (convolve1d (to_float64 <$> contents h x) savgol_coeffs))
    by apply lookup_insert_eq.
  destruct (Scipy.fit_edges_polyfit _ _) as [buf'|e] eqn:Hfit; simpl.
  - rewrite insert_insert_eq. unfold mret, M_ret, alloc. do 2 f_equal.
    apply fit_edges_polyfit_length in Hfit. by rewrite !length_fmap, Hfit.
  - unfold raise. f_equal.
    destruct (Scipy.fit_edge _ _ _ _ _ _);
      rewrite !delete_insert_eq; apply delete_id, alloc_fresh.
Qed.

Lemma process_lsv_refines potential current params h :
  Mem.process_lsv potential current params h =
  returning (App.process_lsv (contents h potential) (contents h current) params) h.
Proof.
  unfold Mem.process_lsv, App.process_lsv.
  rewrite lookup_or_raise_bind. unfold getitem.
  destruct (params !! "scan_rate"); [|done]. simpl.
  rewrite bind_run, savgol_filter_refines.
  by destruct (Scipy.savgol_filter _).
Qed.

Lemma subtract_slices_refines current h :
  alive h current →
  Mem.subtract (Mem.slice_from 0 2 current) (Mem.slice_from 1 2 current) h =
  returning (Numpy.subtract (Numpy.slice_from 0 2 (contents h current))
                            (Numpy.slice_from 1 2 (contents h current))) h.
Proof.
  intros Ha. unfold Mem.subtract.
  rewrite !(contents_slice_from h current) by (done || lia).
  by destruct (Numpy.subtract _ _).
Qed.

Lemma process_dpv_refines potential current params h :
  alive h current →
  Mem.process_dpv potential current params h =
  returning (App.process_dpv (contents h potential) (contents h current) params) h.
Proof.
  intros Ha. unfold Mem.process_dpv, App.process_dpv.
  rewrite lookup_or_raise_bind. unfold getitem.
  destruct (params !! "amplitude"); [|done]. simpl.
  rewrite lookup_or_raise_bind.
  destruct (params !! "step_potential"); [|done]. simpl.
  rewrite bind_run, subtract_slices_refines by done.
  by destruct (Numpy.subtract _ _).
Qed.

Lemma process_swv_refines potential current params h :
  alive h current →
  Mem.process_swv potential current params h =
  returning (App.process_swv (contents h potential) (contents h current) params) h.
Proof.
  intros Ha. unfold Mem.process_swv, App.process_swv.
  rewrite lookup_or_raise_bind. unfold getitem.
  destruct (params !! "frequency"); [|done]. simpl.
  rewrite lookup_or_raise_bind.
  destruct (params !! "amplitude"); [|done]. simpl.
  rewrite bind_run, subtract_slices_refines by done.
  by destruct (Numpy.subtract _ _).
Qed.

(** The array that [returning] hands back shows the returned elements. *)
Lemma returning_contents (r : result ndarray) h out h' :
  returning r h = (Ok out, h') → r = Ok (contents h' out).
Proof.
  destruct r as [ys|e]; simpl; [|done].
  unfold alloc. intros [= <- <-]. f_equal.
  unfold contents. simpl. rewrite lookup_insert_eq. simpl.
  clear. induction ys as [|y ys IH] using rev_ind; [done|].
  rewrite length_app. simpl.
  replace (length ys + 1) with (S (length ys)) by lia.
  rewrite seq_S, omap_app. simpl.
  replace (length ys * 1) with (length ys) by lia.
  rewrite lookup_app_r, Nat.sub_diag by lia. simpl.
  rewrite IH at 1. f_equal.
  apply omap_ext_in. intros i Hi%elem_of_seq.
  replace (i * 1) with i by lia. rewrite lookup_app_l by lia. done.
Qed.

End refinement.

(** * The claims *)



(** C2, as the specification states it, fails: on five samples the two
    halves have three and two elements, the subtraction raises, and no
    array of [(5-1)/2] elements is returned. *)
Lemma odd_length_is_not_truncated :
  process_dpv Sample.potential5 Sample.current5 dpv_defaults =
    Raise (ValueError_broadcast 3 2) ∧
  process_swv Sample.potential5 Sample.current5 swv_defaults =
    Raise (ValueError_broadcast 3 2) ∧
  ¬ ∃ out : ndarray,
      process_dpv Sample.potential5 Sample.current5 dpv_defaults = Ok out ∧
      length out = (length Sample.current5 - 1) / 2.
Proof.
  split_and!; [vm_compute; reflexivity..|].
  intros (out & Hout & _). vm_compute in Hout. discriminate.
Qed.

(** C2, amended.  On an odd number [N >= 5] of samples, [process_dpv] and
    [process_swv] return nothing: subtracting the [N/2] backward samples
    from the [N/2 + 1] forward samples raises numpy's shape error.  On three
    samples the one backward sample is broadcast and two elements come back,
    [current[0] - current[1]] and [current[2] - current[1]].  On fewer than
    two samples they return an empty array and raise nothing. *)
Theorem odd_length_raises_short_is_empty
    (potential current : ndarray) (params_dpv params_swv : dict) :
  dpv_schema params_dpv →
  swv_schema params_swv →
  (Nat.Odd (length current) → 5 ≤ length current →
     process_dpv potential current params_dpv =
       Raise (ValueError_broadcast (S (length current / 2)) (length current / 2)) ∧
     process_swv potential current params_swv =
       Raise (ValueError_broadcast (S (length current / 2)) (length current / 2))) ∧
  (∀ x0 x1 x2, current = [x0; x1; x2] →
     process_dpv potential current params_dpv =
       Ok [subtract_scalar x0 x1; subtract_scalar x2 x1] ∧
     process_swv potential current params_swv =
       Ok [subtract_scalar x0 x1; subtract_scalar x2 x1]) ∧
  (length current < 2 →
     process_dpv potential current params_dpv = Ok [] ∧
     process_swv potential current params_swv = Ok []).
Proof.
  intros Hdpv Hswv.
  rewrite (process_dpv_unfold _ _ _ Hdpv), (process_swv_unfold _ _ _ Hswv).
  split_and!.
  - intros [k Hk] Hfive.
    assert (length current / 2 = k) as ->.
    { rewrite Hk, Nat.mul_comm, Nat.add_comm.
      rewrite Nat.div_add by lia. reflexivity. }
    rewrite (difference_of_odd current k) by lia. done.
  - intros x0 x1 x2 ->. by rewrite difference_of_three.
  - intros Hshort. by rewrite difference_of_short.
Qed.

Lemma odd_length_raises_short_is_empty_witness :
  (process_dpv Sample.potential5 Sample.current5 dpv_defaults =
     Raise (ValueError_broadcast 3 2) ∧
   process_swv Sample.potential5 Sample.current5 swv_defaults =
     Raise (ValueError_broadcast 3 2)) ∧
  (process_dpv Sample.current3 Sample.current3 dpv_defaults =
     Ok (Sample.ints [8; 6]%Z) ∧
   process_swv Sample.current3 Sample.current3 swv_defaults =
     Ok (Sample.ints [8; 6]%Z)) ∧
  (process_dpv Sample.current1 Sample.current1 dpv_defaults = Ok [] ∧
   process_swv Sample.current1 Sample.current1 swv_defaults = Ok []).
Proof.
  split; [|split].
  - apply (odd_length_raises_short_is_empty
             Sample.potential5 Sample.current5 dpv_defaults swv_defaults).
    + split; eexists; vm_compute; reflexivity.
    + split; eexists; vm_compute; reflexivity.
    + exists 2. reflexivity.
    + simpl. lia.
  - destruct (odd_length_raises_short_is_empty
                Sample.current3 Sample.current3 dpv_defaults swv_defaults)
      as (_ & Hthree & _).
    + split; eexists; vm_compute; reflexivity.
    + split; eexists; vm_compute; reflexivity.
    + exact (Hthree (Int64 10) (Int64 2) (Int64 8) eq_refl).
  - apply (odd_length_raises_short_is_empty
             Sample.current1 Sample.current1 dpv_defaults swv_defaults).
    + split; eexists; vm_compute; reflexivity.
    + split; eexists; vm_compute; reflexivity.
    + simpl. lia.
Defined.

(** C3. A technique other than LSV, DPV and SWV falls through the
    dispatcher: the call returns [None] and raises nothing, whatever the
    arrays and the parameters are. *)
Theorem unrecognized_technique_falls_through
    (potential current : ndarray) (technique : string) (params : dict) :
  technique ≠ "LSV" → technique ≠ "DPV" → technique ≠ "SWV" →
  apply_technique potential current technique params = Ok None.
Proof.
  intros Hl Hd Hs. unfold apply_technique.
  by rewrite !decide_False.
Qed.

Lemma unrecognized_technique_falls_through_witness :
  apply_technique Sample.potential4 Sample.current4 "CV" ∅ = Ok None.
Proof.
  apply (unrecognized_technique_falls_through
           Sample.potential4 Sample.current4 "CV" ∅); discriminate.
Defined.

(** C4. On fewer than 21 samples [process_lsv] fails.  The failure is the
    [ValueError] that [savgol_filter] raises for a window longer than the
    data, which is what the specification calls a ProcessingError; a
    parameter set without [scan_rate] fails even earlier, with [KeyError]. *)
Theorem lsv_short_input_fails
    (potential current : ndarray) (params : dict) :
  length current < 21 →
  raises (process_lsv potential current params) ∧
  (lsv_schema params →
   process_lsv potential current params =
     Raise (ValueError_window 21 (length current))).
Proof.
  intros Hn.
  assert (lsv_schema params →
          process_lsv potential current params =
            Raise (ValueError_window 21 (length current))) as Hschema.
  { intros Hs. rewrite (process_lsv_unfold _ _ _ Hs).
    by apply savgol_filter_short. }
  split; [|done].
  destruct (params !! "scan_rate") as [v|] eqn:Hv.
  - eexists. apply Hschema. unfold lsv_schema. by rewrite Hv.
  - exists (KeyError "scan_rate"). unfold process_lsv, getitem. by rewrite Hv.
Qed.

Lemma lsv_short_input_fails_witness :
  raises (process_lsv Sample.potential4 Sample.current4 lsv_defaults) ∧
  process_lsv Sample.potential4 Sample.current4 lsv_defaults =
    Raise (ValueError_window 21 4).
Proof.
  destruct (lsv_short_input_fails Sample.potential4 Sample.current4 lsv_defaults)
    as [Hraises Hwhich].
  - simpl. lia.
  - split; [exact Hraises|]. apply Hwhich. eexists. vm_compute. reflexivity.
Defined.




(** C6. With parameter sets that hold the keys each processor reads,
    [process_swv] and [process_dpv] return the same result on every input,
    exceptions included. *)
Theorem swv_equals_dpv
    (potential current : ndarray) (params_dpv params_swv : dict) :
  dpv_schema params_dpv →
  swv_schema params_swv →
  process_swv potential current params_swv =
  process_dpv potential current params_dpv.
Proof.
  intros Hdpv Hswv.
  by rewrite (process_dpv_unfold _ _ _ Hdpv), (process_swv_unfold _ _ _ Hswv).
Qed.

(** The scenario of the specification: both give [[8, 4]] on
    [Current = [10, 2, 8, 4]]. *)
Lemma swv_equals_dpv_witness :
  process_swv Sample.potential4 Sample.current4 swv_defaults =
    process_dpv Sample.potential4 Sample.current4 dpv_defaults ∧
  process_dpv Sample.potential4 Sample.current4 dpv_defaults =
    Ok (Sample.ints [8; 4]%Z) ∧
  process_swv Sample.potential4 Sample.current4 swv_defaults =
    Ok (Sample.ints [8; 4]%Z).
Proof.
  split.
  - apply (swv_equals_dpv Sample.potential4 Sample.current4
             dpv_defaults swv_defaults);
      split; eexists; vm_compute; reflexivity.
  - split; vm_compute; reflexivity.
Defined.

(** C7, as the specification states it, fails: 21 samples satisfy the
    precondition on the length, but with the first one missing (an empty
    cell, read as NaN) the edge fit of [savgol_filter] raises and no
    sequence is returned. *)
Lemma lsv_raises_on_missing_sample :
  21 ≤ length Sample.gap21 ∧
  process_lsv Sample.gap21 Sample.gap21 lsv_defaults = Raise LinAlgError ∧
  ¬ ∃ out : ndarray,
      process_lsv Sample.gap21 Sample.gap21 lsv_defaults = Ok out ∧
      length out = length Sample.gap21.
Proof.
  split_and!; [simpl; lia|vm_compute; reflexivity|].
  intros (out & Hout & _). vm_compute in Hout. discriminate.
Qed.

(** C7, amended.  On 21 samples or more, none of the first 21 and the last
    21 of them NaN or infinite, [process_lsv] returns an array of the size
    of its input; and whatever the samples are, an array that [process_lsv]
    returns has the size of its input. *)
Theorem lsv_preserves_length
    (potential current : ndarray) (params : dict) :
  21 ≤ length current →
  lsv_schema params →
  (edges_finite current = true →
   ∃ out : ndarray,
     process_lsv potential current params = Ok out ∧
     length out = length current) ∧
  (∀ out : ndarray,
     process_lsv potential current params = Ok out →
     length out = length current).
Proof.
  intros Hn Hs. rewrite (process_lsv_unfold _ _ _ Hs). split.
  - intros Hfin. by apply savgol_filter_long.
  - intros out. apply savgol_filter_length.
Qed.

Lemma lsv_preserves_length_witness :
  ∃ out : ndarray,
    process_lsv (Sample.ramp 24) (Sample.ramp 24) lsv_defaults = Ok out ∧
    length out = 24.
Proof.
  apply (lsv_preserves_length (Sample.ramp 24) (Sample.ramp 24) lsv_defaults).
  - simpl. lia.
  - eexists. vm_compute. reflexivity.
  - vm_compute. reflexivity.
Defined.

(** C8. Whatever exception the dispatcher call on the full data set raises,
    [optimize_asv_parameters] raises the same one and returns no parameter
    set. *)
Theorem optimizer_propagates_failure
    (data : DataFrame) (metal technique : string)
    (potential current : ndarray) (defaults : dict) (e : exn) :
  data !! "Potential" = Some potential →
  data !! "Current" = Some current →
  technique_params !! technique = Some defaults →
  apply_technique potential current technique defaults = Raise e →
  optimize_asv_parameters data metal technique = Raise e.
Proof.
  intros Hp Hc Ht He.
  by rewrite (optimize_unfold _ _ _ _ _ _ Hp Hc Ht), He.
Qed.

(** The example of the specification: the minimum length of LSV. *)
Lemma optimizer_propagates_failure_witness :
  optimize_asv_parameters Sample.sweep4 "Pb" "LSV" =
    Raise (ValueError_window 21 4).
Proof.
  apply (optimizer_propagates_failure Sample.sweep4 "Pb" "LSV"
           Sample.potential4 Sample.current4 lsv_defaults);
    [reflexivity..|].
  vm_compute. reflexivity.
Defined.

(** C9. No call writes into an array that existed before it: for every
    array [a] of the store, the inputs [potential] and [current] and the
    columns of the data set among them, the buffer under [a] and the elements
    [a] shows are the same after [process_lsv], [process_dpv], [process_swv],
    [apply_technique] and [optimize_asv_parameters] as before, whether the
    call returns or raises; and a signal that is returned owns a buffer that
    did not exist before the call. *)
Theorem calls_leave_inputs_unchanged
    (h : Mem.heap) (a potential current : Mem.array)
    (technique metal : string) (params : dict)
    (columns : gmap string Mem.array) :
  Mem.alive h a →
  (Mem.unchanged h (Mem.process_lsv potential current params h).2 a ∧
   Mem.unchanged h (Mem.process_dpv potential current params h).2 a ∧
   Mem.unchanged h (Mem.process_swv potential current params h).2 a ∧
   Mem.unchanged h (Mem.apply_technique potential current technique params h).2 a ∧
   Mem.unchanged h (Mem.optimize_asv_parameters columns metal technique h).2 a) ∧
  (Mem.returns_fresh (Mem.process_lsv potential current params) ∧
   Mem.returns_fresh (Mem.process_dpv potential current params) ∧
   Mem.returns_fresh (Mem.process_swv potential current params) ∧
   ∀ out,
     (Mem.apply_technique potential current technique params h).1 = Ok (Some out) →
     Mem.base out ∉ dom h).
Proof.
  intros Ha. split.
  - split_and!; apply unchanged_of_subseteq; try done.
    + apply preserves_process_lsv.
    + apply preserves_process_dpv.
    + apply preserves_process_swv.
    + apply preserves_apply_technique.
    + apply preserves_optimize_asv_parameters.
  - split_and!.
    + apply returns_fresh_process_lsv.
    + apply returns_fresh_process_dpv.
    + apply returns_fresh_process_swv.
    + intros out. apply returns_fresh_apply_technique.
Qed.
(** On the sweep of the specification, whose two columns share a buffer, the
    differencing leaves both columns as they were; on a sweep of 24 samples
    the smoothing, which does write in place, leaves its input as it was. *)
Lemma calls_leave_inputs_unchanged_witness :
  Mem.unchanged Sample.block4
    (Mem.process_dpv Sample.column_potential4 Sample.column_current4
       dpv_defaults Sample.block4).2 Sample.column_potential4 ∧
  Mem.unchanged Sample.block4
    (Mem.process_dpv Sample.column_potential4 Sample.column_current4
       dpv_defaults Sample.block4).2 Sample.column_current4 ∧
  Mem.unchanged Sample.store24
    (Mem.process_lsv Sample.column_potential24 Sample.column_current24
       lsv_defaults Sample.store24).2 Sample.column_current24.
Proof.
  split_and!.
  - destruct (calls_leave_inputs_unchanged Sample.block4
                Sample.column_potential4
                Sample.column_potential4 Sample.column_current4 "DPV" "Pb"
                dpv_defaults Sample.columns4) as [(_ & Hdpv & _) _];
      [|exact Hdpv].
    exists (Sample.potential4 ++ Sample.current4).
    split; [reflexivity|]. intros i Hi. simpl in *. lia.
  - destruct (calls_leave_inputs_unchanged Sample.block4
                Sample.column_current4
                Sample.column_potential4 Sample.column_current4 "DPV" "Pb"
                dpv_defaults Sample.columns4) as [(_ & Hdpv & _) _];
      [|exact Hdpv].
    exists (Sample.potential4 ++ Sample.current4).
    split; [reflexivity|]. intros i Hi. simpl in *. lia.
  - destruct (calls_leave_inputs_unchanged Sample.store24
                Sample.column_current24
                Sample.column_potential24 Sample.column_current24 "LSV" "Pb"
                lsv_defaults Sample.columns24) as [(Hlsv & _) _];
      [|exact Hlsv].
    exists (Sample.ramp 24).
    split; [reflexivity|]. intros i Hi. simpl in *. lia.
Defined.

(** C10. For a technique outside LSV, DPV and SWV the optimizer raises
    [KeyError] on every data set.  On a data set with the columns Potential
    and Current the key is the technique: the error comes from the lookup in
    the table of defaults, and the store is as before the call, no array was
    made.  The dispatcher, given the same technique, returns [None]. *)
Theorem optimizer_rejects_unknown_technique
    (data : DataFrame) (metal technique : string)
    (potential current : ndarray) (params : dict)
    (columns : gmap string Mem.array) (h : Mem.heap) :
  technique ≠ "LSV" → technique ≠ "DPV" → technique ≠ "SWV" →
  (∃ key, optimize_asv_parameters data metal technique = Raise (KeyError key)) ∧
  (is_Some (data !! "Potential") → is_Some (data !! "Current") →
   optimize_asv_parameters data metal technique = Raise (KeyError technique)) ∧
  (is_Some (columns !! "Potential") → is_Some (columns !! "Current") →
   Mem.optimize_asv_parameters columns metal technique h =
     (Raise (KeyError technique), h)) ∧
  apply_technique potential current technique params = Ok None.
Proof.
  intros Hl Hd Hs.
  pose proof (technique_params_other technique Hl Hd Hs) as Ht.
  split_and!.
  - unfold optimize_asv_parameters, getitem.
    destruct (data !! "Potential"); [|by eexists].
    destruct (data !! "Current"); [|by eexists].
    rewrite Ht. by eexists.
  - intros [p Hp] [c Hc].
    unfold optimize_asv_parameters, getitem. by rewrite Hp, Hc, Ht.
  - intros [p Hp] [c Hc].
    unfold Mem.optimize_asv_parameters.
    rewrite lookup_or_raise_bind, Hp, lookup_or_raise_bind, Hc.
    by rewrite lookup_or_raise_bind, Ht.
  - unfold apply_technique. by rewrite !decide_False.
Qed.

Lemma optimizer_rejects_unknown_technique_witness :
  optimize_asv_parameters Sample.sweep4 "Pb" "CV" = Raise (KeyError "CV") ∧
  Mem.optimize_asv_parameters Sample.columns4 "Pb" "CV" Sample.block4 =
    (Raise (KeyError "CV"), Sample.block4) ∧
  apply_technique Sample.potential4 Sample.current4 "CV" dpv_defaults = Ok None.
Proof.
  destruct (optimizer_rejects_unknown_technique Sample.sweep4 "Pb" "CV"
              Sample.potential4 Sample.current4 dpv_defaults
              Sample.columns4 Sample.block4)
    as (_ & Hvalue & Hstore & Hdispatch); [discriminate..|].
  split_and!.
  - apply Hvalue; eexists; reflexivity.
  - apply Hstore; eexists; reflexivity.
  - exact Hdispatch.
Defined.

(** * Further properties *)

(** ** The processors and the optimizer *)

Section core_extras.
Implicit Types (potential current a b out : ndarray) (params : dict).

Lemma broadcast_to_length a k :
  length a = k ∨ length a = 1 → length (broadcast_to a k) = k.
Proof.
  intros Hk. unfold broadcast_to. case_decide; [done|].
  destruct Hk as [?|Ha]; [done|].
  destruct a as [|x [|??]]; simplify_eq/=. by rewrite length_replicate.
Qed.

(** The size of a difference is the size of one of the operands. *)
Lemma subtract_length a b out :
  subtract a b = Ok out → length out = length a ∨ length out = length b.
Proof.
  unfold subtract, broadcast_shape. intros Hout.
  repeat case_decide; simplify_eq/=; rewrite length_zip_with;
    rewrite !broadcast_to_length by auto; lia.
Qed.

Lemma slice_len_le n start : slice_len n start 2 ≤ n.
Proof.
  unfold slice_len. destruct n as [|n].
  - destruct start; reflexivity.
  - apply Nat.Div0.div_le_upper_bound. lia.
Qed.

Lemma differencing_length current out :
  subtract (slice_from 0 2 current) (slice_from 1 2 current) = Ok out →
  length out ≤ length current.
Proof.
  intros [->| ->]%subtract_length;
    rewrite slice_from_length by lia; apply slice_len_le.
Qed.

Lemma elem_of_slice_from start step a x :
  x ∈ slice_from start step a → x ∈ a.
Proof.
  unfold slice_from. rewrite list_elem_of_omap.
  intros (i & _ & Hi). by eapply list_elem_of_lookup_2.
Qed.

Lemma Forall_broadcast_to (P : scalar → Prop) a k :
  Forall P a → Forall P (broadcast_to a k).
Proof.
  intros Ha. unfold broadcast_to. case_decide; [done|].
  destruct a as [|x [|??]]; try done.
  apply Forall_replicate. by inversion Ha.
Qed.

Lemma Forall_zip_with_2 {A B C} (P : A → Prop) (Q : B → Prop) (R : C → Prop)
    (f : A → B → C) (l : list A) (k : list B) :
  (∀ u v, P u → Q v → R (f u v)) →
  Forall P l → Forall Q k → Forall R (zip_with f l k).
Proof.
  intros Hf Hl. revert k. induction Hl as [|u l Hu Hl IH]; intros k Hk; [done|].
  destruct Hk as [|v k Hv Hk]; simpl; [done|].
  constructor; [by apply Hf|by apply IH].
Qed.

Lemma differencing_Forall (P : scalar → Prop) current out :
  (∀ u v, P u → P v → P (subtract_scalar u v)) →
  Forall P current →
  subtract (slice_from 0 2 current) (slice_from 1 2 current) = Ok out →
  Forall P out.
Proof.
  intros Hsub Hcur. unfold subtract.
  destruct (broadcast_shape _ _) as [k|]; [|done]. intros [= <-].
  apply (Forall_zip_with_2 P P); [done|..]; apply Forall_broadcast_to;
    apply Forall_forall; intros x Hx%elem_of_slice_from;
    by eapply Forall_forall in Hcur.
Qed.

Lemma wrap64_is_int64 z : Dtype.is_int64 (Int64 (wrap64 z)) = true.
Proof.
  unfold Dtype.is_int64, wrap64.
  pose proof (Z.mod_pos_bound (z + 2 ^ 63) (2 ^ 64) eq_refl).
  apply andb_true_iff. split; [apply Z.leb_le|apply Z.ltb_lt]; lia.
Qed.

Lemma subtract_scalar_int64 u v :
  Dtype.is_int64 u = true → Dtype.is_int64 v = true →
  Dtype.is_int64 (subtract_scalar u v) = true.
Proof. destruct u, v; try done. intros _ _. apply wrap64_is_int64. Qed.

Lemma subtract_scalar_float64 u v :
  Dtype.is_float64 u = true → Dtype.is_float64 v = true →
  Dtype.is_float64 (subtract_scalar u v) = true.
Proof. by destruct u, v. Qed.

(** With a fitting parameter set the dispatcher is the processor's array
    expression; neither [potential] nor a parameter value occurs in it. *)
Lemma apply_technique_fits potential current technique params :
  Accept.fits technique params →
  apply_technique potential current technique params =
  signal ← (if decide (technique = "LSV") then savgol_filter current
            else subtract (slice_from 0 2 current) (slice_from 1 2 current));
  Ok (Some signal).
Proof.
  intros [[-> Hs]|[[-> Hs]|[-> Hs]]].
  - by rewrite apply_technique_lsv, (process_lsv_unfold _ _ _ Hs).
  - by rewrite apply_technique_dpv, (process_dpv_unfold _ _ _ Hs).
  - by rewrite apply_technique_swv, (process_swv_unfold _ _ _ Hs).
Qed.

Lemma fits_defaults technique defaults :
  technique_params !! technique = Some defaults → Accept.fits technique defaults.
Proof.
  intros Ht. unfold Accept.fits.
  destruct (decide (technique = "LSV")) as [->|Hl].
  { left. split; [done|]. rewrite technique_params_lsv in Ht.
    injection Ht as <-. apply schema_lsv_defaults. }
  destruct (decide (technique = "DPV")) as [->|Hd].
  { right; left. split; [done|]. rewrite technique_params_dpv in Ht.
    injection Ht as <-. apply schema_dpv_defaults. }
  destruct (decide (technique = "SWV")) as [->|Hs].
  { right; right. split; [done|]. rewrite technique_params_swv in Ht.
    injection Ht as <-. apply schema_swv_defaults. }
  by rewrite technique_params_other in Ht.
Qed.

(** More keys do no harm. *)
Lemma fits_unpack_into technique params others :
  Accept.fits technique params → Accept.fits technique (unpack_into params others).
Proof.
  assert (∀ k, is_Some (params !! k) → is_Some (unpack_into params others !! k))
    as Hmono.
  { intros k [v Hv]. exists v. unfold unpack_into.
    by apply lookup_union_Some_l. }
  unfold Accept.fits, lsv_schema, dpv_schema, swv_schema.
  intros [[-> ?]|[[-> [??]]|[-> [??]]]]; [left|right; left|right; right];
    split_and!; auto.
Qed.

(** No signal is longer than the current array. *)
Lemma signal_length_le potential current signal technique params :
  apply_technique potential current technique params = Ok (Some signal) →
  length signal ≤ length current.
Proof.
  unfold apply_technique, process_lsv, process_dpv, process_swv.
  repeat case_decide; [..|done].
  - destruct (getitem params "scan_rate"); [simpl|done].
    destruct (savgol_filter current) as [out|] eqn:Hout; [|done].
    intros [= <-]. apply savgol_filter_length in Hout. lia.
  - destruct (getitem params "amplitude"); [simpl|done].
    destruct (getitem params "step_potential"); [simpl|done].
    destruct (subtract _ _) as [out|] eqn:Hout; [|done].
    intros [= <-]. by apply differencing_length.
  - destruct (getitem params "frequency"); [simpl|done].
    destruct (getitem params "amplitude"); [simpl|done].
    destruct (subtract _ _) as [out|] eqn:Hout; [|done].
    intros [= <-]. by apply differencing_length.
Qed.

End core_extras.

(** X1. Each processor reads its parameters before it looks at the data, in
    the order of its source lines, and a missing key raises [KeyError] with
    that key, whatever the arrays are. *)
Theorem processors_report_first_missing_key
    (potential current : ndarray) (params : dict) :
  (params !! "scan_rate" = None →
   process_lsv potential current params = Raise (KeyError "scan_rate")) ∧
  (params !! "amplitude" = None →
   process_dpv potential current params = Raise (KeyError "amplitude")) ∧
  (is_Some (params !! "amplitude") → params !! "step_potential" = None →
   process_dpv potential current params = Raise (KeyError "step_potential")) ∧
  (params !! "frequency" = None →
   process_swv potential current params = Raise (KeyError "frequency")) ∧
  (is_Some (params !! "frequency") → params !! "amplitude" = None →
   process_swv potential current params = Raise (KeyError "amplitude")).
Proof.
  unfold process_lsv, process_dpv, process_swv, getitem.
  split_and!.
  - by intros ->.
  - by intros ->.
  - by intros [v ->] ->.
  - by intros ->.
  - by intros [v ->] ->.
Qed.

(** The defaults of one technique handed to the processor of another. *)
Lemma processors_report_first_missing_key_witness :
  process_lsv Sample.potential4 Sample.current4 dpv_defaults =
    Raise (KeyError "scan_rate") ∧
  process_dpv Sample.potential4 Sample.current4 lsv_defaults =
    Raise (KeyError "amplitude") ∧
  process_dpv Sample.potential4 Sample.current4 swv_defaults =
    Raise (KeyError "step_potential") ∧
  process_swv Sample.potential4 Sample.current4 dpv_defaults =
    Raise (KeyError "frequency") ∧
  process_swv Sample.potential4 Sample.current4
    (<["frequency" := PyInt 25]> ∅) = Raise (KeyError "amplitude").
Proof.
  split_and!.
  - apply (processors_report_first_missing_key
             Sample.potential4 Sample.current4 dpv_defaults). reflexivity.
  - apply (processors_report_first_missing_key
             Sample.potential4 Sample.current4 lsv_defaults). reflexivity.
  - apply (processors_report_first_missing_key
             Sample.potential4 Sample.current4 swv_defaults);
      [eexists|]; reflexivity.
  - apply (processors_report_first_missing_key
             Sample.potential4 Sample.current4 dpv_defaults). reflexivity.
  - apply (processors_report_first_missing_key
             Sample.potential4 Sample.current4 (<["frequency" := PyInt 25]> ∅));
      [eexists|]; reflexivity.
Defined.

(** X2. The signal depends on the current samples and the technique alone:
    two calls of [apply_technique] with parameter sets that both hold the
    keys of the technique return the same result, exceptions included,
    whatever the parameter values, the further keys and the potential
    arrays are. *)
Theorem signal_ignores_potential_and_parameter_values
    (potential potential' current : ndarray) (technique : string)
    (params params' : dict) :
  Accept.fits technique params →
  Accept.fits technique params' →
  apply_technique potential current technique params =
  apply_technique potential' current technique params'.
Proof.
  intros Hp Hp'. by rewrite !apply_technique_fits.
Qed.

Lemma signal_ignores_potential_and_parameter_values_witness :
  apply_technique Sample.potential4 Sample.current4 "SWV" swv_defaults =
  apply_technique Sample.current1 Sample.current4 "SWV"
    (<["frequency" := PyFloat 99.5]> (<["amplitude" := PyInt 0]>
     (<["deposition_time" := PyInt 30]> ∅))).
Proof.
  apply (signal_ignores_potential_and_parameter_values
           Sample.potential4 Sample.current1 Sample.current4 "SWV").
  - right; right. split; [reflexivity|]. split; eexists; reflexivity.
  - right; right. split; [reflexivity|]. split; eexists; reflexivity.
Defined.

(** X3. A signal that [apply_technique] returns is never longer than the
    current array it was computed from, for all three techniques and every
    number of samples. *)
Theorem processed_signal_is_never_longer
    (potential current signal : ndarray) (technique : string) (params : dict) :
  apply_technique potential current technique params = Ok (Some signal) →
  length signal ≤ length current.
Proof. apply signal_length_le. Qed.

(** Three samples give two: shorter than the input, longer than the number
    of pairs. *)
Lemma processed_signal_is_never_longer_witness :
  length (Sample.ints [8; 6]%Z) ≤ length Sample.current3.
Proof.
  apply (processed_signal_is_never_longer
           Sample.current3 Sample.current3 (Sample.ints [8; 6]%Z)
           "DPV" dpv_defaults).
  reflexivity.
Defined.

(** X4. DPV and SWV keep the dtype of the data: from [int64] samples the
    signal is [int64], every difference wrapped into the 64-bit range, and
    from [float64] samples it is [float64]. *)
Theorem differencing_keeps_dtype
    (potential current signal : ndarray) (technique : string) (params : dict) :
  technique ≠ "LSV" →
  apply_technique potential current technique params = Ok (Some signal) →
  (Forall (λ v, Dtype.is_int64 v = true) current →
   Forall (λ v, Dtype.is_int64 v = true) signal) ∧
  (Forall (λ v, Dtype.is_float64 v = true) current →
   Forall (λ v, Dtype.is_float64 v = true) signal).
Proof.
  intros Hl. unfold apply_technique, process_dpv, process_swv.
  rewrite decide_False by done. repeat case_decide; [..|done].
  - destruct (getitem params "amplitude"); [simpl|done].
    destruct (getitem params "step_potential"); [simpl|done].
    destruct (subtract _ _) as [out|] eqn:Hout; [|done].
    intros [= <-]. split; intros Hcur.
    + eapply differencing_Forall; [apply subtract_scalar_int64|done..].
    + eapply differencing_Forall; [apply subtract_scalar_float64|done..].
  - destruct (getitem params "frequency"); [simpl|done].
    destruct (getitem params "amplitude"); [simpl|done].
    destruct (subtract _ _) as [out|] eqn:Hout; [|done].
    intros [= <-]. split; intros Hcur.
    + eapply differencing_Forall; [apply subtract_scalar_int64|done..].
    + eapply differencing_Forall; [apply subtract_scalar_float64|done..].
Qed.

(** The smallest and the largest [int64]: their difference wraps to 1. *)
Lemma differencing_keeps_dtype_witness :
  apply_technique [] (Sample.ints [- 2 ^ 63; 2 ^ 63 - 1]%Z) "DPV" dpv_defaults =
    Ok (Some (Sample.ints [1]%Z)) ∧
  Forall (λ v, Dtype.is_int64 v = true) (Sample.ints [1]%Z).
Proof.
  split; [vm_compute; reflexivity|].
  apply (differencing_keeps_dtype
           [] (Sample.ints [- 2 ^ 63; 2 ^ 63 - 1]%Z) (Sample.ints [1]%Z)
           "DPV" dpv_defaults).
  - discriminate.
  - vm_compute. reflexivity.
  - repeat constructor.
Defined.

Section optimizer_extras.
Implicit Types (data : DataFrame) (potential current : ndarray).

Lemma even_half k : 2 * k / 2 = k.
Proof. rewrite Nat.mul_comm. apply Nat.div_mul. lia. Qed.

Lemma odd_half k : (2 * k + 1) / 2 = k.
Proof.
  rewrite Nat.mul_comm, Nat.add_comm, Nat.div_add by lia. reflexivity.
Qed.

(** The differencing on every number of samples. *)
Lemma differencing_accepted current :
  Nat.even (length current) || bool_decide (length current ≤ 3) = true →
  ∃ out, subtract (slice_from 0 2 current) (slice_from 1 2 current) = Ok out.
Proof.
  intros [Heven|Hsmall%bool_decide_eq_true]%orb_true_iff.
  - apply Nat.even_spec in Heven as [k Hk].
    destruct (difference_of_pairs current k Hk) as (out & -> & _). by eexists.
  - destruct current as [|x0 [|x1 [|x2 [|x3 l]]]]; simpl in Hsmall;
      [by eexists..|lia].
Qed.

Lemma differencing_rejected current :
  Nat.even (length current) || bool_decide (length current ≤ 3) = false →
  subtract (slice_from 0 2 current) (slice_from 1 2 current) =
  Raise (ValueError_broadcast (S (length current / 2)) (length current / 2)).
Proof.
  intros [Hodd Hbig%bool_decide_eq_false]%orb_false_iff.
  assert (Nat.Odd (length current)) as [k Hk].
  { apply Nat.odd_spec. by rewrite <- Nat.negb_even, Hodd. }
  rewrite Hk, odd_half. apply difference_of_odd; lia.
Qed.

End optimizer_extras.

(** X6. On a data set with both columns and for each of the three
    techniques, the current samples decide what the optimizer does, by their
    number and, for LSV, by whether those at the two ends are finite.  It
    returns the recommendation when LSV has at least 21 samples with no NaN
    or infinity among the first 21 and the last 21, and when DPV or SWV have
    an even number of samples or at most three.  On all other data it raises
    the exception of the processor: the window error of [savgol_filter] on
    fewer than 21 samples, [LinAlgError] on a NaN or an infinity at an end,
    and the broadcast error of the subtraction. *)
Theorem optimizer_outcome_by_length
    (data : DataFrame) (metal technique : string) (potential current : ndarray) :
  data !! "Potential" = Some potential →
  data !! "Current" = Some current →
  technique ∈ ["LSV"; "DPV"; "SWV"] →
  (Accept.accepted technique current = true →
   ∃ recommended : dict,
     spec_recommendation technique = Some recommended ∧
     optimize_asv_parameters data metal technique = Ok recommended) ∧
  (Accept.accepted technique current = false →
   optimize_asv_parameters data metal technique =
     Raise (Accept.rejection technique current)).
Proof.
  intros Hp Hc Ht.
  assert (∃ defaults, technique_params !! technique = Some defaults ∧
                      Accept.fits technique defaults) as (defaults & Hd & Hfits).
  { repeat (apply elem_of_cons in Ht as [->|Ht]);
      [eexists; split; [reflexivity|by apply fits_defaults]..|].
    by apply elem_of_nil in Ht. }
  rewrite (optimize_unfold _ _ _ _ _ _ Hp Hc Hd).
  rewrite (apply_technique_fits _ _ _ _ Hfits).
  unfold Accept.accepted, Accept.rejection.
  destruct (decide (technique = "LSV")) as [->|Hl].
  - rewrite technique_params_lsv in Hd. injection Hd as <-. split.
    + intros [Hn%bool_decide_eq_true Hfin]%andb_true_iff.
      destruct (savgol_filter_long current Hn Hfin) as (out & -> & _).
      eexists. split; reflexivity.
    + intros [Hn%bool_decide_eq_false|Hfin]%andb_false_iff.
      * rewrite decide_True by lia. by rewrite savgol_filter_short by lia.
      * destruct (decide (length current < window_length)) as [Hshort|Hlong].
        -- by rewrite savgol_filter_short.
        -- by rewrite savgol_filter_not_finite by (done || lia).
  - assert (defaults = dpv_defaults ∧ technique = "DPV" ∨
            defaults = swv_defaults ∧ technique = "SWV") as Hrow.
    { repeat (apply elem_of_cons in Ht as [->|Ht]); [done|..].
      - left. rewrite technique_params_dpv in Hd. by injection Hd as <-.
      - right. rewrite technique_params_swv in Hd. by injection Hd as <-.
      - by apply elem_of_nil in Ht. }
    split.
    + intros (out & ->)%differencing_accepted.
      destruct Hrow as [[-> ->]|[-> ->]]; eexists; split; reflexivity.
    + intros ->%differencing_rejected. done.
Qed.

(** One sweep per case: DPV on 4 and SWV on 3 samples; DPV on 5, LSV on 4,
    and LSV on 24 with an empty cell. *)
Lemma optimizer_outcome_by_length_witness :
  (∃ recommended : dict,
     spec_recommendation "DPV" = Some recommended ∧
     optimize_asv_parameters Sample.sweep4 "Pb" "DPV" = Ok recommended) ∧
  (∃ recommended : dict,
     spec_recommendation "SWV" = Some recommended ∧
     optimize_asv_parameters
       (<["Current" := Sample.current3]> (<["Potential" := Sample.current3]> ∅))
       "Pb" "SWV" = Ok recommended) ∧
  optimize_asv_parameters Sample.sweep5 "Pb" "DPV" =
    Raise (ValueError_broadcast 3 2) ∧
  optimize_asv_parameters Sample.sweep4 "Pb" "LSV" =
    Raise (ValueError_window 21 4) ∧
  optimize_asv_parameters Sample.sweep_gap24 "Pb" "LSV" = Raise LinAlgError.
Proof.
  split_and!.
  - apply (optimizer_outcome_by_length Sample.sweep4 "Pb" "DPV"
             Sample.potential4 Sample.current4);
      [reflexivity|reflexivity|set_solver|reflexivity].
  - apply (optimizer_outcome_by_length
             (<["Current" := Sample.current3]> (<["Potential" := Sample.current3]> ∅))
             "Pb" "SWV" Sample.current3 Sample.current3);
      [reflexivity|reflexivity|set_solver|reflexivity].
  - apply (optimizer_outcome_by_length Sample.sweep5 "Pb" "DPV"
             Sample.potential5 Sample.current5);
      [reflexivity|reflexivity|set_solver|reflexivity].
  - apply (optimizer_outcome_by_length Sample.sweep4 "Pb" "LSV"
             Sample.potential4 Sample.current4);
      [reflexivity|reflexivity|set_solver|reflexivity].
  - apply (optimizer_outcome_by_length Sample.sweep_gap24 "Pb" "LSV"
             (Sample.ramp 24) Sample.gap24);
      [reflexivity|reflexivity|set_solver|vm_compute; reflexivity].
Defined.

(** X7. What the optimizer returns can be handed back to the dispatcher:
    whenever [optimize_asv_parameters] returns a parameter set,
    [apply_technique] with that set, on the same data and technique, returns
    the signal it returns with the technique's defaults. *)
Theorem recommendation_is_accepted_by_dispatcher
    (data : DataFrame) (metal technique : string)
    (potential current : ndarray) (recommended : dict) :
  data !! "Potential" = Some potential →
  data !! "Current" = Some current →
  optimize_asv_parameters data metal technique = Ok recommended →
  ∃ (defaults : dict) (signal : ndarray),
    technique_params !! technique = Some defaults ∧
    apply_technique potential current technique defaults = Ok (Some signal) ∧
    apply_technique potential current technique recommended = Ok (Some signal).
Proof.
  intros Hp Hc Hopt.
  destruct (technique_params !! technique) as [defaults|] eqn:Hd.
  2:{ unfold optimize_asv_parameters, getitem in Hopt.
      by rewrite Hp, Hc, Hd in Hopt. }
  pose proof (fits_defaults _ _ Hd) as Hfits.
  rewrite (optimize_unfold _ _ _ _ _ _ Hp Hc Hd) in Hopt.
  rewrite (apply_technique_fits _ _ _ _ Hfits) in Hopt.
  destruct (if decide (technique = "LSV") then _ else _) as [signal|e] eqn:Hrun;
    [|done].
  simpl in Hopt. injection Hopt as <-.
  exists defaults, signal. split; [done|].
  rewrite !apply_technique_fits by (try apply fits_unpack_into; done).
  by rewrite Hrun.
Qed.

Lemma recommendation_is_accepted_by_dispatcher_witness :
  ∃ (defaults : dict) (signal : ndarray),
    technique_params !! "SWV" = Some defaults ∧
    apply_technique Sample.potential4 Sample.current4 "SWV" defaults =
      Ok (Some signal) ∧
    apply_technique Sample.potential4 Sample.current4 "SWV"
      (<["frequency" := PyInt 25]>
      (<["amplitude" := PyFloat 0.025]>
      (<["deposition_potential" := PyFloat (-1.2)]>
      (<["deposition_time" := PyInt 120]> ∅)))) = Ok (Some signal).
Proof.
  apply (recommendation_is_accepted_by_dispatcher Sample.sweep4 "Cu" "SWV"
           Sample.potential4 Sample.current4); reflexivity.
Defined.

(** ** The order of the recommendation and its labels *)

Section ordered_extras.

Lemma ordered_rows technique :
  Ordered.to_dict <$> (Ordered.technique_params !! technique) =
  technique_params !! technique.
Proof.
  unfold Ordered.technique_params, technique_params.
  destruct (decide (technique = "SWV")) as [->|Hs]; [reflexivity|].
  rewrite !(lookup_insert_ne _ "SWV") by done.
  destruct (decide (technique = "DPV")) as [->|Hd]; [reflexivity|].
  rewrite !(lookup_insert_ne _ "DPV") by done.
  destruct (decide (technique = "LSV")) as [->|Hl]; [reflexivity|].
  rewrite !(lookup_insert_ne _ "LSV") by done.
  by rewrite !lookup_empty.
Qed.

(** The rows of the table are those of the three techniques. *)
Lemma ordered_row_cases technique row :
  Ordered.technique_params !! technique = Some row →
  row = [("scan_rate", PyFloat 0.05)] ∨
  row = [("amplitude", PyFloat 0.025); ("step_potential", PyFloat 0.004)] ∨
  row = [("frequency", PyInt 25); ("amplitude", PyFloat 0.025)].
Proof.
  unfold Ordered.technique_params.
  destruct (decide (technique = "SWV")) as [->|Hs];
    [intros [= <-]; auto|rewrite lookup_insert_ne by done].
  destruct (decide (technique = "DPV")) as [->|Hd];
    [intros [= <-]; auto|rewrite lookup_insert_ne by done].
  destruct (decide (technique = "LSV")) as [->|Hl];
    [intros [= <-]; auto|rewrite lookup_insert_ne by done].
  by rewrite lookup_empty.
Qed.

End ordered_extras.

(** X8. The dictionary that [optimize_asv_parameters] returns iterates in
    the order in which the source writes it: [deposition_potential],
    [deposition_time], then the keys of the technique's row of the table, no
    key twice; and the optimizer with the order kept returns and raises
    exactly as the optimizer on unordered dictionaries does. *)
Theorem recommendation_keeps_source_order
    (data : DataFrame) (metal technique : string) :
  match Ordered.optimize_asv_parameters data metal technique with
  | Ok recommended =>
      optimize_asv_parameters data metal technique =
        Ok (Ordered.to_dict recommended) ∧
      NoDup (Ordered.items recommended).*1 ∧
      ∃ row, Ordered.technique_params !! technique = Some row ∧
             (Ordered.items recommended).*1 =
               "deposition_potential" :: "deposition_time" :: row.*1
  | Raise e => optimize_asv_parameters data metal technique = Raise e
  end.
Proof.
  unfold Ordered.optimize_asv_parameters, optimize_asv_parameters.
  destruct (getitem data "Potential") as [potential|]; [simpl|done].
  destruct (getitem data "Current") as [current|]; [simpl|done].
  pose proof (ordered_rows technique) as Hrows. unfold getitem.
  destruct (Ordered.technique_params !! technique) as [row|] eqn:Hrow;
    simpl in Hrows; rewrite <- Hrows; [simpl|done].
  destruct (apply_technique _ _ _ _); [simpl|done].
  destruct (ordered_row_cases _ _ Hrow) as [->|[->| ->]].
  - split_and!; [reflexivity|compute_done|].
    eexists. split; reflexivity.
  - split_and!; [reflexivity|compute_done|].
    eexists. split; reflexivity.
  - split_and!; [reflexivity|compute_done|].
    eexists. split; reflexivity.
Qed.

Section labels.

Lemma title_char_round_trip (b : bool) (c : Ascii.ascii) :
  Str.is_lower c || bool_decide (c = "_"%char) = true →
  let c' := if decide (c = "_"%char) then " "%char else c in
  let t := Str.to_lower (if b then Str.to_lower c' else Str.to_upper c') in
  (if decide (t = " "%char) then "_"%char else t) = c ∧
  Str.is_cased c' = Str.is_lower c.
Proof.
  destruct b, c as [[] [] [] [] [] [] [] []]; vm_compute; intros H;
    first [discriminate H | split; reflexivity].
Qed.

Lemma title_from_round_trip (b : bool) (s : string) :
  Str.is_name s = true →
  Str.replace " " "_" (Str.lower (Str.title_from b (Str.replace "_" " " s))) = s.
Proof.
  revert b. induction s as [|c s IH]; intros b; simpl; [done|].
  intros [Hc Hs]%andb_true_iff.
  destruct (title_char_round_trip b c Hc) as [Hchar Hcased].
  simpl in Hchar, Hcased. rewrite Hchar. f_equal. by apply IH.
Qed.

End labels.

(** X9. The label of a metric determines the parameter: for a name made of
    lower-case letters and underscores, lower-casing the label
    [name.replace('_', ' ').title()] and putting the underscores back gives
    the name again, so that two such names with the same label are equal. *)
Theorem metric_label_round_trip (name name' : string) :
  Str.is_name name = true →
  Str.replace " " "_" (Str.lower (Str.title (Str.replace "_" " " name))) = name ∧
  (Str.is_name name' = true →
   Str.title (Str.replace "_" " " name) = Str.title (Str.replace "_" " " name') →
   name = name').
Proof.
  intros Hn. split; [by apply title_from_round_trip|].
  intros Hn' Heq.
  rewrite <- (title_from_round_trip false name Hn).
  rewrite <- (title_from_round_trip false name' Hn').
  unfold Str.title in Heq. by rewrite Heq.
Qed.

Lemma metric_label_round_trip_witness :
  Str.title (Str.replace "_" " " "deposition_potential") = "Deposition Potential" ∧
  Str.replace " " "_" (Str.lower "Deposition Potential") = "deposition_potential".
Proof.
  split; [reflexivity|].
  apply (metric_label_round_trip "deposition_potential" "scan_rate").
  reflexivity.
Defined.

(** ** The page *)

Section page.
Import Ui.
Implicit Types (s : session) (t : trace).

Lemma ui_bind_done {A B} (a : A) t (f : A → UI B) :
  ((Done a, t) : UI A) ≫= f = ((f a).1, t ++ (f a).2).
Proof. reflexivity. Qed.

Lemma ui_bind_failed {A B} e t (f : A → UI B) :
  ((Failed e, t) : UI A) ≫= f = (Failed e, t).
Proof. reflexivity. Qed.

(** What the widgets hand to the rest of the script. *)
Lemma widgets_inv s technique common tp metals file :
  (widgets s).1 = Done (technique, common, tp, metals, file) →
  technique = selectbox_at s "Select Technique" ∧
  metals = multiselect_at s "Select Metals" ∧
  file = file_at s ("Upload " +:+ technique +:+ " Data (CSV)") ∧
  common = <["deposition_time" := slider_at s "Deposition Time (s)"]>
           (<["deposition_potential" := slider_at s "Deposition Potential (V)"]> ∅) ∧
  tp = (if decide (technique = "LSV") then
          <["scan_rate" := slider_at s "Scan Rate (V/s)"]> ∅
        else if decide (technique = "DPV") then
          <["amplitude" := slider_at s "Amplitude (V)"]>
          (<["step_potential" := slider_at s "Step Potential (V)"]> ∅)
        else if decide (technique = "SWV") then
          <["amplitude" := slider_at s "Amplitude (V)"]>
          (<["frequency" := slider_at s "Frequency (Hz)"]> ∅)
        else ∅).
Proof.
  unfold widgets, sidebar, unpack_into. simpl.
  repeat case_decide; simpl; intros ?; simplify_eq;
    rewrite ?(right_id_L ∅ (∪)); split_and!; congruence.
Qed.

Lemma widgets_done s :
  ∃ common tp,
    (widgets s).1 =
    Done (selectbox_at s "Select Technique", common, tp,
          multiselect_at s "Select Metals",
          file_at s ("Upload " +:+ selectbox_at s "Select Technique"
                     +:+ " Data (CSV)")).
Proof.
  unfold widgets, sidebar. simpl. repeat case_decide; simpl; by do 2 eexists.
Qed.

Lemma widgets_only_widgets s :
  Forall (λ pc, is_widget pc.2 = true) (widgets s).2.
Proof.
  unfold widgets, sidebar. simpl. repeat case_decide; simpl; repeat constructor.
Qed.

(** The page after the widgets. *)
Lemma create_asv_app_unfold s technique common tp metals file :
  (widgets s).1 = Done (technique, common, tp, metals, file) →
  create_asv_app s =
  let rest :=
    match file, metals with
    | Some file, _ :: _ =>
        try_except
          (data ← read_csv file;
           for_each metals (analyse technique (unpack_into tp common) data))
          report
    | _, _ => mret ()
    end in
  (rest.1, (widgets s).2 ++ rest.2).
Proof.
  intros Hw. unfold create_asv_app.
  destruct (widgets s) as [[w|e] t]; simpl in Hw; [|done].
  injection Hw as ->. reflexivity.
Qed.

End page.

Section page_runs.
Import Ui.
Implicit Types (s : session) (t : trace) (data : DataFrame)
  (potential current processed : ndarray).

Lemma for_each_done {A} (l : list A) (body : A → UI unit) (f : A → trace) :
  (∀ a, a ∈ l → body a = (Done (), f a)) →
  for_each l body = (Done (), concat (f <$> l)).
Proof.
  induction l as [|a l IH]; intros Hbody; [done|]. simpl.
  rewrite (Hbody a) by left. rewrite ui_bind_done, IH; [done|].
  intros b Hb. apply Hbody. by right.
Qed.

Lemma for_each_emit {A} (l : list A) (p : place) (g : A → call) :
  for_each l (λ a, emit p (g a)) = (Done (), (λ a, (p, g a)) <$> l).
Proof.
  induction l as [|a l IH]; [done|].
  change (for_each (a :: l) (λ a, emit p (g a)))
    with (((Done (), [(p, g a)]) : UI unit) ≫=
          λ _, for_each l (λ a, emit p (g a))).
  by rewrite ui_bind_done, IH.
Qed.

Lemma for_each_first_fails {A} (a : A) (l : list A) (body : A → UI unit) e t :
  body a = (Failed e, t) → for_each (a :: l) body = (Failed e, t).
Proof. intros Hbody. simpl. by rewrite Hbody. Qed.

(** A signal comes from one of the three techniques only. *)
Lemma apply_technique_Some potential current technique params processed :
  apply_technique potential current technique params = Ok (Some processed) →
  technique ∈ ["LSV"; "DPV"; "SWV"].
Proof.
  unfold apply_technique. repeat case_decide; subst; [set_solver..|done].
Qed.

Lemma fits_page s technique common tp metals file :
  (widgets s).1 = Done (technique, common, tp, metals, file) →
  technique ∈ ["LSV"; "DPV"; "SWV"] →
  Accept.fits technique (unpack_into tp common).
Proof.
  intros (_ & _ & _ & _ & ->)%widgets_inv Ht.
  apply fits_unpack_into. unfold Accept.fits, lsv_schema, dpv_schema, swv_schema.
  repeat (apply elem_of_cons in Ht as [->|Ht]); simpl.
  - left. split; [done|]. by rewrite lookup_insert_eq.
  - right; left. split; [done|]. split.
    + by rewrite lookup_insert_eq.
    + rewrite lookup_insert_ne by done. by rewrite lookup_insert_eq.
  - right; right. split; [done|]. split.
    + rewrite lookup_insert_ne by done. by rewrite lookup_insert_eq.
    + by rewrite lookup_insert_eq.
  - by apply elem_of_nil in Ht.
Qed.

(** The optimizer with the order kept, past its lookups. *)
Lemma ordered_optimize_unfold data metal technique potential current row :
  data !! "Potential" = Some potential →
  data !! "Current" = Some current →
  Ordered.technique_params !! technique = Some row →
  Ordered.optimize_asv_parameters data metal technique =
  processed_current ←
    apply_technique potential current technique (Ordered.to_dict row);
  Ok (Ordered.update
        (Ordered.display [("deposition_potential", PyFloat (-1.2));
                          ("deposition_time", PyInt 120)]) row).
Proof.
  intros Hp Hc Ht. unfold Ordered.optimize_asv_parameters, getitem.
  rewrite Hp, Hc, Ht. simpl.
  by destruct (apply_technique _ _ _ _).
Qed.

(** Once the dispatcher has returned a signal for the parameters of the
    page, the optimizer returns too, and the same for every metal. *)
Lemma ordered_optimize_after_signal data technique potential current params
    processed :
  data !! "Potential" = Some potential →
  data !! "Current" = Some current →
  Accept.fits technique params →
  apply_technique potential current technique params = Ok (Some processed) →
  ∃ optimal_params,
    ∀ metal, Ordered.optimize_asv_parameters data metal technique =
             Ok optimal_params.
Proof.
  intros Hp Hc Hfits Hrun.
  pose proof (ordered_rows technique) as Hrows.
  destruct (Ordered.technique_params !! technique) as [row|] eqn:Hrow.
  - eexists. intros metal.
    rewrite (ordered_optimize_unfold _ _ _ _ _ _ Hp Hc Hrow).
    simpl in Hrows. symmetry in Hrows.
    rewrite (apply_technique_fits _ _ _ _ (fits_defaults _ _ Hrows)).
    rewrite (apply_technique_fits _ _ _ _ Hfits) in Hrun.
    destruct (if decide (technique = "LSV") then _ else _); [|done].
    reflexivity.
  - exfalso. simpl in Hrows. symmetry in Hrows.
    apply apply_technique_Some in Hrun.
    repeat (apply elem_of_cons in Hrun as [->|Hrun]); [done..|].
    by apply elem_of_nil in Hrun.
Qed.

Lemma analyse_success technique params data metal potential current processed
    optimal_params :
  data !! "Potential" = Some potential →
  data !! "Current" = Some current →
  apply_technique potential current technique params = Ok (Some processed) →
  Ordered.optimize_asv_parameters data metal technique = Ok optimal_params →
  analyse technique params data metal =
  (Done (), section technique potential current processed optimal_params metal).
Proof.
  intros Hp Hc Hrun Hopt. unfold analyse, getitem.
  rewrite Hp, Hc. simpl. rewrite Hrun. simpl. rewrite Hopt. simpl.
  unfold Ordered.items. rewrite for_each_emit. simpl.
  reflexivity.
Qed.

Lemma analyse_failure technique params data metal e :
  (potential ← getitem data "Potential";
   current ← getitem data "Current";
   apply_technique potential current technique params) = Raise e →
  analyse technique params data metal =
  (Failed (Raised e),
   [(Main, st_subheader (metal +:+ " Analysis (" +:+ technique +:+ ")"))]).
Proof.
  unfold analyse.
  destruct (getitem data "Potential") as [potential|e1]; simpl;
    [|by intros [= <-]].
  destruct (getitem data "Current") as [current|e2]; simpl;
    [|by intros [= <-]].
  by intros ->.
Qed.

End page_runs.

Section page_charts.
Import Ui.
Implicit Types (s : session) (t : trace) (data : DataFrame).

Lemma for_each_Forall {A} (P : place * call → Prop) (l : list A)
    (body : A → UI unit) :
  (∀ a, Forall P (body a).2) → Forall P (for_each l body).2.
Proof.
  intros Hbody. induction l as [|a l IH]; [constructor|]. simpl.
  specialize (Hbody a). destruct (body a) as [[[]|e] t]; simpl in *; [|done].
  by apply Forall_app.
Qed.

Lemma analyse_balanced technique params data metal :
  (∀ potential current,
     data !! "Potential" = Some potential → data !! "Current" = Some current →
     length potential = length current) →
  Forall (λ pc, balanced pc.2) (analyse technique params data metal).2.
Proof.
  intros Hlen. unfold analyse, getitem.
  destruct (data !! "Potential") as [potential|] eqn:Hp; simpl;
    [|repeat constructor].
  destruct (data !! "Current") as [current|] eqn:Hc; simpl;
    [|repeat constructor].
  specialize (Hlen potential current eq_refl eq_refl).
  destruct (apply_technique _ _ _ _) as [[processed|]|e] eqn:Hrun; simpl;
    [|repeat constructor..].
  constructor; [done|]. constructor; [done|].
  constructor.
  { simpl. constructor; [done|]. constructor; [|done]. simpl.
    rewrite length_take. apply signal_length_le in Hrun. lia. }
  destruct (Ordered.optimize_asv_parameters _ _ _) as [optimal|e]; simpl;
    [|constructor].
  constructor; [done|]. unfold Ordered.items. rewrite for_each_emit. simpl.
  apply Forall_app. split; [|repeat constructor].
  apply Forall_fmap, Forall_true. done.
Qed.

End page_charts.

(** X10. Without an uploaded file, or without a selected metal, the page
    stops after its widgets: the run ends normally and has made no call
    other than the title, the header and the input widgets. *)
Theorem idle_page_shows_only_widgets (s : Ui.session) :
  Ui.file_at s ("Upload " +:+ Ui.selectbox_at s "Select Technique"
                +:+ " Data (CSV)") = None ∨
  Ui.multiselect_at s "Select Metals" = [] →
  Ui.create_asv_app s = (Ui.Done (), (Ui.widgets s).2) ∧
  Forall (λ pc, Ui.is_widget pc.2 = true) (Ui.create_asv_app s).2.
Proof.
  intros Hidle. destruct (widgets_done s) as (common & tp & Hw).
  assert (Ui.create_asv_app s = (Ui.Done (), (Ui.widgets s).2)) as Hrun.
  { rewrite (create_asv_app_unfold _ _ _ _ _ _ Hw).
    destruct Hidle as [-> | ->]; simpl.
    - by rewrite (right_id_L [] (++)).
    - destruct (Ui.file_at _ _); simpl; by rewrite (right_id_L [] (++)). }
  split; [done|]. rewrite Hrun. apply widgets_only_widgets.
Qed.

Lemma idle_page_shows_only_widgets_witness :
  Ui.create_asv_app UiSample.idle_run =
    (Ui.Done (), (Ui.widgets UiSample.idle_run).2) ∧
  Forall (λ pc, Ui.is_widget pc.2 = true) (Ui.create_asv_app UiSample.idle_run).2.
Proof.
  apply (idle_page_shows_only_widgets UiSample.idle_run).
  left. reflexivity.
Defined.

(** X11. Whatever the sliders say, the parameters that the page passes to
    the dispatcher hold the keys of the selected technique: for a technique
    offered by the selectbox, the call of [apply_technique] on the page
    returns the signal, or raises the exception, that the same call with the
    optimizer's defaults does; in particular it raises no [KeyError] for a
    parameter and never returns [None]. *)
Theorem page_parameters_fit_technique
    (s : Ui.session) (technique : string) (common tp : dict)
    (metals : list string) (file : option (string + DataFrame))
    (potential current : ndarray) :
  (Ui.widgets s).1 = Ui.Done (technique, common, tp, metals, file) →
  technique ∈ ["LSV"; "DPV"; "SWV"] →
  ∃ defaults : dict,
    technique_params !! technique = Some defaults ∧
    apply_technique potential current technique (unpack_into tp common) =
      apply_technique potential current technique defaults ∧
    apply_technique potential current technique (unpack_into tp common) ≠ Ok None.
Proof.
  intros Hw Ht. pose proof (fits_page _ _ _ _ _ _ Hw Ht) as Hfits.
  assert (∃ defaults, technique_params !! technique = Some defaults)
    as [defaults Hd].
  { repeat (apply elem_of_cons in Ht as [->|Ht]); [by eexists..|].
    by apply elem_of_nil in Ht. }
  exists defaults. split; [done|].
  rewrite !apply_technique_fits by (done || by apply fits_defaults).
  split; [done|]. by destruct (if decide (technique = "LSV") then _ else _).
Qed.

Lemma page_parameters_fit_technique_witness :
  ∃ defaults : dict,
    technique_params !! "DPV" = Some defaults ∧
    apply_technique Sample.potential4 Sample.current4 "DPV"
      (unpack_into
         (<["amplitude" := PyFloat 0.025]> (<["step_potential" := PyFloat 0.004]> ∅))
         (<["deposition_time" := PyInt 120]>
          (<["deposition_potential" := PyFloat (-1.2)]> ∅))) =
      apply_technique Sample.potential4 Sample.current4 "DPV" defaults ∧
    apply_technique Sample.potential4 Sample.current4 "DPV"
      (unpack_into
         (<["amplitude" := PyFloat 0.025]> (<["step_potential" := PyFloat 0.004]> ∅))
         (<["deposition_time" := PyInt 120]>
          (<["deposition_potential" := PyFloat (-1.2)]> ∅))) ≠ Ok None.
Proof.
  apply (page_parameters_fit_technique UiSample.dpv_run "DPV" _ _
           ["Pb"; "Cd"] (Some (inr Sample.sweep4))).
  - reflexivity.
  - set_solver.
Defined.

(** X12. A failure inside the [try] block ends the loop and is reported once.
    When [pd.read_csv] raises, and when the first selected metal's lookup of
    a column or dispatcher call raises, the run still ends normally; after
    the widgets the page shows, in the second case, the subheader of the
    first metal only, and then the two [st.error] messages, the first one
    carrying the exception.  No chart and no metric is drawn, and the other
    metals are not visited. *)
Theorem failure_is_reported_once
    (s : Ui.session) (technique : string) (common tp : dict)
    (metal : string) (metals : list string) (file : string + DataFrame) :
  (Ui.widgets s).1 =
    Ui.Done (technique, common, tp, metal :: metals, Some file) →
  match file with
  | inl why =>
      Ui.create_asv_app s =
      (Ui.Done (),
       (Ui.widgets s).2 ++
       [(Ui.Main, Ui.st_error (Ui.ErrorProcessingFile (Ui.ReadError why)));
        (Ui.Main, Ui.st_error
           (Ui.Text "Please ensure CSV has 'Potential' and 'Current' columns"))])
  | inr data =>
      ∀ e,
        (potential ← getitem data "Potential";
         current ← getitem data "Current";
         apply_technique potential current technique (unpack_into tp common)) =
          Raise e →
        Ui.create_asv_app s =
        (Ui.Done (),
         (Ui.widgets s).2 ++
         [(Ui.Main, Ui.st_subheader (metal +:+ " Analysis (" +:+ technique +:+ ")"));
          (Ui.Main, Ui.st_error (Ui.ErrorProcessingFile (Ui.Raised e)));
          (Ui.Main, Ui.st_error
             (Ui.Text "Please ensure CSV has 'Potential' and 'Current' columns"))])
  end.
Proof.
  intros Hw. rewrite (create_asv_app_unfold _ _ _ _ _ _ Hw).
  destruct file as [why|data]; [reflexivity|].
  intros e He. cbv zeta. unfold Ui.read_csv.
  change (mret data ≫= ?f) with (((Ui.Done data, []) : Ui.UI DataFrame) ≫= f).
  rewrite ui_bind_done.
  rewrite (for_each_first_fails _ _ _ _ _ (analyse_failure _ _ _ _ _ He)).
  reflexivity.
Qed.

(** Five samples under DPV; a CSV without the Current column; a file that
    is no CSV. *)
Lemma failure_is_reported_once_witness :
  Ui.create_asv_app UiSample.odd_run =
    (Ui.Done (),
     (Ui.widgets UiSample.odd_run).2 ++
     [(Ui.Main, Ui.st_subheader "Pb Analysis (DPV)");
      (Ui.Main, Ui.st_error
         (Ui.ErrorProcessingFile (Ui.Raised (ValueError_broadcast 3 2))));
      (Ui.Main, Ui.st_error
         (Ui.Text "Please ensure CSV has 'Potential' and 'Current' columns"))]) ∧
  Ui.create_asv_app UiSample.unreadable_run =
    (Ui.Done (),
     (Ui.widgets UiSample.unreadable_run).2 ++
     [(Ui.Main, Ui.st_error
         (Ui.ErrorProcessingFile (Ui.ReadError "No columns to parse from file")));
      (Ui.Main, Ui.st_error
         (Ui.Text "Please ensure CSV has 'Potential' and 'Current' columns"))]).
Proof.
  split.
  - apply (failure_is_reported_once UiSample.odd_run "DPV" _ _ "Pb" ["Cd"]
             (inr Sample.sweep5) eq_refl (ValueError_broadcast 3 2)).
    vm_compute. reflexivity.
  - apply (failure_is_reported_once UiSample.unreadable_run "LSV" _ _ "Zn" []
             (inl "No columns to parse from file") eq_refl).
Defined.

(** X13. When the dispatcher returns a signal for the uploaded data, the page
    draws one section per selected metal, in the order of the selection and
    with nothing in between: subheader, columns, chart, the line "Optimal
    Parameters:", one metric per recommended parameter, and the rule.  The
    optimizer cannot fail at that point, and chart data and metrics are the
    same in every section; only the subheader and the chart title name the
    metal. *)
Theorem success_renders_every_metal
    (s : Ui.session) (technique : string) (common tp : dict)
    (metal : string) (metals : list string) (data : DataFrame)
    (potential current processed : ndarray) :
  (Ui.widgets s).1 =
    Ui.Done (technique, common, tp, metal :: metals, Some (inr data)) →
  data !! "Potential" = Some potential →
  data !! "Current" = Some current →
  apply_technique potential current technique (unpack_into tp common) =
    Ok (Some processed) →
  ∃ optimal_params : Ordered.odict,
    (∀ m, Ordered.optimize_asv_parameters data m technique = Ok optimal_params) ∧
    Ui.create_asv_app s =
    (Ui.Done (),
     (Ui.widgets s).2 ++
     concat (Ui.section technique potential current processed optimal_params
               <$> (metal :: metals))).
Proof.
  intros Hw Hp Hc Hrun.
  pose proof (fits_page _ _ _ _ _ _ Hw (apply_technique_Some _ _ _ _ _ Hrun))
    as Hfits.
  destruct (ordered_optimize_after_signal _ _ _ _ _ _ Hp Hc Hfits Hrun)
    as [optimal_params Hopt].
  exists optimal_params. split; [done|].
  rewrite (create_asv_app_unfold _ _ _ _ _ _ Hw).
  cbv zeta. unfold Ui.read_csv.
  change (mret data ≫= ?f) with (((Ui.Done data, []) : Ui.UI DataFrame) ≫= f).
  rewrite ui_bind_done.
  rewrite (for_each_done _ _
             (Ui.section technique potential current processed optimal_params)).
  - reflexivity.
  - intros m _. by apply analyse_success.
Qed.

Lemma success_renders_every_metal_witness :
  ∃ optimal_params : Ordered.odict,
    (∀ m, Ordered.optimize_asv_parameters Sample.sweep4 m "DPV" =
          Ok optimal_params) ∧
    Ui.create_asv_app UiSample.dpv_run =
    (Ui.Done (),
     (Ui.widgets UiSample.dpv_run).2 ++
     concat (Ui.section "DPV" Sample.potential4 Sample.current4
               (Sample.ints [8; 4]%Z) optimal_params <$> ["Pb"; "Cd"])).
Proof.
  apply (success_renders_every_metal UiSample.dpv_run "DPV" _ _ "Pb" ["Cd"]
           Sample.sweep4 Sample.potential4 Sample.current4
           (Sample.ints [8; 4]%Z) eq_refl eq_refl eq_refl).
  vm_compute. reflexivity.
Defined.

(** X14. In every chart of every run, each trace has as many x values as y
    values, provided the two columns of the uploaded data frame have one
    length, as the columns of a data frame do: the processed signal is
    plotted against the first [len(processed_data)] potentials, and the
    signal is never longer than the data. *)
Theorem charts_are_balanced (s : Ui.session) :
  (∀ label data potential current,
     Ui.file_at s label = Some (inr data) →
     data !! "Potential" = Some potential → data !! "Current" = Some current →
     length potential = length current) →
  Forall (λ pc, Ui.balanced pc.2) (Ui.create_asv_app s).2.
Proof.
  intros Hlen. destruct (widgets_done s) as (common & tp & Hw).
  rewrite (create_asv_app_unfold _ _ _ _ _ _ Hw). cbv zeta. cbn [snd].
  apply Forall_app. split.
  { eapply Forall_impl; [apply widgets_only_widgets|].
    intros [p c] Hc. by destruct c. }
  destruct (Ui.file_at s _) as [[why|data]|] eqn:Hfile; [..|constructor].
  - destruct (Ui.multiselect_at s _); simpl; repeat constructor.
  - destruct (Ui.multiselect_at s _) as [|metal metals]; [constructor|].
    unfold Ui.read_csv, Ui.try_except.
    change (mret data ≫= ?f) with (((Ui.Done data, []) : Ui.UI DataFrame) ≫= f).
    rewrite ui_bind_done.
    pose proof (for_each_Forall (λ pc, Ui.balanced pc.2) (metal :: metals)
                  (Ui.analyse (Ui.selectbox_at s "Select Technique")
                     (unpack_into tp common) data)) as Hloop.
    destruct (Ui.for_each _ _) as [[[]|e] t]; simpl in *.
    + apply Hloop. intros m. apply analyse_balanced. eauto.
    + apply Forall_app. split; [|repeat constructor].
      apply Hloop. intros m. apply analyse_balanced. eauto.
Qed.

Lemma charts_are_balanced_witness :
  Forall (λ pc, Ui.balanced pc.2) (Ui.create_asv_app UiSample.dpv_run).2.
Proof.
  apply (charts_are_balanced UiSample.dpv_run).
  intros label data potential current [= <-] [= <-] [= <-]. reflexivity.
Defined.

Section first_run.
Import Ui.

(** What a returned recommendation is made of. *)
Lemma optimize_Ok_inv (data : DataFrame) (metal technique : string)
    (recommended : dict) :
  optimize_asv_parameters data metal technique = Ok recommended →
  ∃ defaults,
    technique_params !! technique = Some defaults ∧
    recommended =
      unpack_into defaults
        (<["deposition_time" := PyInt 120]>
        (<["deposition_potential" := PyFloat (-1.2)]> ∅)).
Proof.
  unfold optimize_asv_parameters, getitem.
  destruct (data !! "Potential"); [simpl|done].
  destruct (data !! "Current"); [simpl|done].
  destruct (technique_params !! technique) as [defaults|]; [simpl|done].
  destruct (apply_technique _ _ _ _); [simpl|done].
  intros [= <-]. by exists defaults.
Qed.

End first_run.

(** X15. The optimizer recommends the settings the page starts with: while
    the sliders stand at the values the script gives them, the parameter set
    that the page passes to the dispatcher is, key by key, the parameter set
    that [optimize_asv_parameters] returns for the selected technique,
    whenever it returns one. *)
Theorem first_run_parameters_are_the_recommendation
    (s : Ui.session) (technique : string) (common tp : dict)
    (metals : list string) (file : option (string + DataFrame))
    (data : DataFrame) (metal : string) (recommended : dict) :
  Ui.first_run s →
  (Ui.widgets s).1 = Ui.Done (technique, common, tp, metals, file) →
  optimize_asv_parameters data metal technique = Ok recommended →
  unpack_into tp common = recommended.
Proof.
  intros (Hdp & Hdt & Hsr & Hsp & Ham & Hfr) Hw
    (defaults & Hd & ->)%optimize_Ok_inv.
  apply widgets_inv in Hw as (_ & _ & _ & -> & ->).
  rewrite Hdp, Hdt, Hsr, Hsp, Ham, Hfr.
  destruct (decide (technique = "LSV")) as [->|Hl].
  { rewrite technique_params_lsv in Hd. injection Hd as <-. reflexivity. }
  destruct (decide (technique = "DPV")) as [->|Hdpv].
  { rewrite technique_params_dpv in Hd. injection Hd as <-. reflexivity. }
  destruct (decide (technique = "SWV")) as [->|Hswv].
  { rewrite technique_params_swv in Hd. injection Hd as <-. reflexivity. }
  by rewrite technique_params_other in Hd.
Qed.

Lemma first_run_parameters_are_the_recommendation_witness :
  unpack_into
    (<["amplitude" := PyFloat 0.025]> (<["step_potential" := PyFloat 0.004]> ∅))
    (<["deposition_time" := PyInt 120]>
     (<["deposition_potential" := PyFloat (-1.2)]> ∅)) =
  <["amplitude" := PyFloat 0.025]>
  (<["step_potential" := PyFloat 0.004]>
  (<["deposition_potential" := PyFloat (-1.2)]>
  (<["deposition_time" := PyInt 120]> ∅))).
Proof.
  apply (first_run_parameters_are_the_recommendation UiSample.dpv_run "DPV"
           _ _ ["Pb"; "Cd"] (Some (inr Sample.sweep4)) Sample.sweep4 "Pb").
  - repeat split.
  - reflexivity.
  - reflexivity.
Defined.

(** ** Which samples a smoothed value depends on *)

Section locality.
Implicit Types (x y : list float) (i : nat).

Lemma foldl_ext_in {A B} (f g : A → B → A) (l : list B) (a : A) :
  (∀ acc b, b ∈ l → f acc b = g acc b) → foldl f a l = foldl g a l.
Proof.
  revert a. induction l as [|b l IH]; intros a Hfg; [done|]. simpl.
  rewrite (Hfg a b) by left. apply IH. intros acc c Hc. apply Hfg. by right.
Qed.

Lemma window_lookup x x' i j :
  take window_length (drop i x) = take window_length (drop i x') →
  j < window_length → x !! (i + j) = x' !! (i + j).
Proof.
  intros Hwin Hj.
  rewrite <- (lookup_drop x), <- (lookup_drop x').
  rewrite <- (lookup_take_lt (drop i x) window_length) by done.
  rewrite <- (lookup_take_lt (drop i x') window_length) by done.
  by rewrite Hwin.
Qed.

(** Away from the edges a smoothed value is the weighted sum over the
    window centred on it. *)
Lemma convolve1d_local x x' i :
  length x = length x' →
  window_length / 2 ≤ i →
  take window_length (drop (i - window_length / 2) x) =
    take window_length (drop (i - window_length / 2) x') →
  convolve1d x savgol_coeffs !! i = convolve1d x' savgol_coeffs !! i.
Proof.
  intros Hlen Hi Hwin. unfold convolve1d, correlate1d. rewrite Hlen.
  rewrite !list_lookup_fmap.
  destruct (decide (i < length x')) as [Hin|Hout];
    [|by rewrite lookup_seq_ge by lia].
  rewrite lookup_seq_lt by done. cbn [fmap option_fmap option_map].
  f_equal. apply foldl_ext_in. intros acc [j w] Hjw. cbn [fst snd].
  f_equal. f_equal.
  apply list_elem_of_lookup in Hjw as [n Hn].
  apply list_lookup_imap_Some in Hn as (w' & Hw' & [= <- <-]).
  apply lookup_lt_Some in Hw'. rewrite length_rev in Hw'.
  change (length savgol_coeffs) with window_length in Hw'.
  rewrite length_rev. change (length savgol_coeffs) with window_length.
  unfold padded. rewrite !decide_False by lia.
  replace (0 + i + j - window_length / 2) with (i - window_length / 2 + j) by lia.
  by rewrite (window_lookup x x' _ j Hwin Hw').
Qed.

Lemma fit_edge_values_length x ws we is_ ie v :
  fit_edge_values x ws we is_ ie = Ok v → length v = ie - is_.
Proof.
  unfold fit_edge_values. destruct (polyfit _); [simpl|done].
  intros [= <-]. by rewrite length_map, length_seq.
Qed.

(** What the two edge fits leave in [y]: the values of the first parabola on
    the first half window, those of the second on the last, and the filtered
    values in between. *)
Lemma fit_edges_lookup x y y' i :
  window_length ≤ length x → length y = length x →
  Scipy.fit_edges_polyfit x y = Ok y' →
  ∃ v1 v2,
    fit_edge_values x 0 window_length 0 (window_length / 2) = Ok v1 ∧
    fit_edge_values x (length x - window_length) (length x)
      (length x - window_length / 2) (length x) = Ok v2 ∧
    y' !! i =
      if decide (i < window_length / 2) then v1 !! i
      else if decide (i < length x - window_length / 2) then y !! i
      else v2 !! (i - (length x - window_length / 2)).
Proof.
  intros Hn Hy. unfold Scipy.fit_edges_polyfit, Scipy.fit_edge.
  destruct (fit_edge_values x 0 _ _ _) as [v1|] eqn:H1; [simpl|done].
  destruct (fit_edge_values x (length x - _) _ _ _) as [v2|] eqn:H2;
    [simpl|done].
  intros [= <-]. exists v1, v2. split; [done|]. split; [done|].
  apply fit_edge_values_length in H1, H2. unfold Scipy.setitem_slice.
  change (window_length / 2) with 10 in *. unfold window_length in *.
  destruct (decide (i < 10)) as [Hleft|Hleft].
  - rewrite list_lookup_inserts_lt by lia.
    rewrite list_lookup_inserts by lia.
    f_equal. lia.
  - destruct (decide (i < length x - 10)) as [Hmid|Hright].
    + rewrite list_lookup_inserts_lt by lia.
      rewrite list_lookup_inserts_ge by lia. done.
    + destruct (decide (i < length x)) as [Hin|Hout].
      * rewrite list_lookup_inserts by (rewrite ?length_inserts; lia). done.
      * rewrite !lookup_ge_None_2; rewrite ?length_inserts; [done|lia..].
Qed.

(** What [savgol_filter] returns is the float64 view of what the edge fits
    leave of the filtered samples. *)
Lemma savgol_filter_returns current signal :
  savgol_filter current = Ok signal →
  window_length ≤ length current ∧
  ∃ y, Scipy.fit_edges_polyfit (to_float64 <$> current)
         (convolve1d (to_float64 <$> current) savgol_coeffs) = Ok y ∧
       signal = Float64 <$> y.
Proof.
  unfold savgol_filter. rewrite length_fmap. case_decide as Hn; [done|].
  destruct (Scipy.fit_edges_polyfit _ _) as [y|] eqn:Hy; [simpl|done].
  intros [= <-]. split; [lia|]. by exists y.
Qed.

End locality.

(** X16. [process_lsv] is local.  For two data sets of one length, the
    smoothed values at an index [i] agree
    - when [i] is at least 10 away from both ends and the data agree on the
      21 samples centred on [i];
    - when [i] is among the first 10 indices and the data agree on their
      first 21 samples;
    - when [i] is among the last 10 indices and the data agree on their
      last 21 samples.
    A sample therefore never reaches further than the window it lies in. *)
Theorem smoothing_is_local
    (potential current current' signal signal' : ndarray) (params : dict)
    (i : nat) :
  length current = length current' →
  process_lsv potential current params = Ok signal →
  process_lsv potential current' params = Ok signal' →
  let x := to_float64 <$> current in
  let x' := to_float64 <$> current' in
  (10 ≤ i < length current - 10 →
   take 21 (drop (i - 10) x) = take 21 (drop (i - 10) x') →
   signal !! i = signal' !! i) ∧
  (i < 10 → take 21 x = take 21 x' → signal !! i = signal' !! i) ∧
  (length current - 10 ≤ i →
   drop (length current - 21) x = drop (length current - 21) x' →
   signal !! i = signal' !! i).
Proof.
  intros Hlen. unfold process_lsv.
  destruct (getitem params "scan_rate"); [simpl|done].
  destruct (savgol_filter current) as [out|] eqn:Hout; [simpl|done].
  destruct (savgol_filter current') as [out'|] eqn:Hout'; [simpl|done].
  intros [= <-] [= <-].
  apply savgol_filter_returns in Hout as (Hn & y & Hy & ->).
  apply savgol_filter_returns in Hout' as (_ & y' & Hy' & ->).
  assert (length (to_float64 <$> current) = length (to_float64 <$> current'))
    as Hlen' by (by rewrite !length_fmap).
  assert (length (to_float64 <$> current) = length current) as Hx
    by apply length_fmap.
  apply (fit_edges_lookup _ _ _ i) in Hy as (v1 & v2 & H1 & H2 & Hy);
    [|by rewrite Hx|by rewrite convolve1d_length].
  apply (fit_edges_lookup _ _ _ i) in Hy' as (v1' & v2' & H1' & H2' & Hy');
    [|by rewrite <- Hlen', Hx|by rewrite convolve1d_length].
  rewrite <- Hlen', Hx in H2', Hy'. rewrite Hx in H2, Hy.
  rewrite !list_lookup_fmap, Hy, Hy'. clear Hy Hy'.
  change (window_length / 2) with 10 in *. unfold window_length in *.
  split_and!.
  - intros [Hlo Hhi] Hwin. repeat case_decide; try lia. f_equal.
    by apply convolve1d_local.
  - intros Hi Hwin. repeat case_decide; try lia.
    assert (v1 = v1') as ->; [|done].
    unfold fit_edge_values in H1, H1'.
    change (take (21 - 0) (drop 0 ?l)) with (take 21 l) in H1, H1'.
    rewrite Hwin in H1. congruence.
  - intros Hi Hwin. repeat case_decide; try lia.
    assert (v2 = v2') as ->; [|done].
    unfold fit_edge_values in H2, H2'.
    rewrite Hwin in H2. congruence.
Qed.

(** A spike at index 12 of 48 samples leaves the value at index 30 as it
    was. *)
Lemma smoothing_is_local_witness :
  ∃ signal signal',
    process_lsv [] (Sample.ramp 48) lsv_defaults = Ok signal ∧
    process_lsv [] (<[12 := Float64 1000]> (Sample.ramp 48)) lsv_defaults =
      Ok signal' ∧
    signal !! 30 = signal' !! 30.
Proof.
  destruct (process_lsv [] (Sample.ramp 48) lsv_defaults)
    as [signal|e] eqn:Hrun; [|exfalso; vm_compute in Hrun; discriminate].
  destruct (process_lsv [] (<[12 := Float64 1000]> (Sample.ramp 48)) lsv_defaults)
    as [signal'|e] eqn:Hrun'; [|exfalso; vm_compute in Hrun'; discriminate].
  exists signal, signal'. split_and!; [reflexivity..|].
  assert (length (Sample.ramp 48) =
          length (<[12 := Float64 1000]> (Sample.ramp 48))) as Hlen
    by reflexivity.
  destruct (smoothing_is_local [] (Sample.ramp 48)
              (<[12 := Float64 1000]> (Sample.ramp 48))
              signal signal' lsv_defaults 30 Hlen Hrun Hrun')
    as (Hmid & _ & _).
  apply Hmid; [simpl; lia|]. vm_compute. reflexivity.
Defined.

(** ** Memory layout *)

Section layout.
Import Mem.

Lemma shows_returning (r : result ndarray) h :
  Layout.shows h (returning r h) r.
Proof.
  unfold Layout.shows.
  destruct (returning r h) as [[out|e] h'] eqn:Hrun; simpl.
  - by eapply returning_contents.
  - destruct r as [ys|e']; simpl in Hrun; [done|].
    unfold raise in Hrun. by injection Hrun as <- <-.
Qed.

End layout.

(** X17. The signal does not depend on how the data lie in memory.  Whatever
    window (offset, stride, count) on whatever buffer the current array is,
    be it a column of a block that it shares with the potential column, the
    three processors return an array showing exactly the elements that they
    compute from the elements the window shows, and raise exactly the
    exception; when they raise, the store is as before. *)
Theorem processing_ignores_memory_layout
    (h : Mem.heap) (potential current : Mem.array) (params : dict) :
  Mem.alive h current →
  Layout.shows h (Mem.process_lsv potential current params h)
    (process_lsv (Mem.contents h potential) (Mem.contents h current) params) ∧
  Layout.shows h (Mem.process_dpv potential current params h)
    (process_dpv (Mem.contents h potential) (Mem.contents h current) params) ∧
  Layout.shows h (Mem.process_swv potential current params h)
    (process_swv (Mem.contents h potential) (Mem.contents h current) params).
Proof.
  intros Ha.
  rewrite process_lsv_refines, process_dpv_refines, process_swv_refines by done.
  split_and!; apply shows_returning.
Qed.

(** The current column of the specification's sweep as the second row of a
    block: the array returned by DPV shows [[8, 4]]. *)
Lemma processing_ignores_memory_layout_witness :
  Mem.contents Sample.block4 Sample.column_current4 = Sample.current4 ∧
  Layout.shows Sample.block4
    (Mem.process_dpv Sample.column_potential4 Sample.column_current4
       dpv_defaults Sample.block4)
    (Ok (Sample.ints [8; 4]%Z)).
Proof.
  split; [reflexivity|].
  apply (processing_ignores_memory_layout Sample.block4
           Sample.column_potential4 Sample.column_current4 dpv_defaults).
  exists (Sample.potential4 ++ Sample.current4).
  split; [reflexivity|]. intros i Hi. simpl in *. lia.
Defined.

Section sliders.
Import Ui.
Implicit Types (s : session).

Lemma for_each_ext {A} (l : list A) (f g : A → UI unit) :
  (∀ a, f a = g a) → for_each l f = for_each l g.
Proof.
  intros Hfg. induction l as [|a l IH]; [done|]. simpl. by rewrite Hfg, IH.
Qed.

Lemma analyse_ext technique params params' data metal :
  (∀ potential current,
     apply_technique potential current technique params =
     apply_technique potential current technique params') →
  analyse technique params data metal = analyse technique params' data metal.
Proof.
  intros Hsame. unfold analyse.
  destruct (getitem data "Potential") as [potential|]; [simpl|done].
  destruct (getitem data "Current") as [current|]; [simpl|done].
  by rewrite Hsame.
Qed.

(** The widgets render the same whatever they answer, the selectbox apart. *)
Lemma widgets_trace s s' :
  selectbox_at s "Select Technique" = selectbox_at s' "Select Technique" →
  (widgets s).2 = (widgets s').2.
Proof.
  intros Ht. unfold widgets, sidebar.
  cbn [mbind UI_bind emit selectbox multiselect file_uploader fst snd app].
  rewrite Ht.
  destruct (decide (selectbox_at s' "Select Technique" = "LSV"));
    [simpl; reflexivity|].
  destruct (decide (selectbox_at s' "Select Technique" = "DPV"));
    [simpl; reflexivity|].
  destruct (decide (selectbox_at s' "Select Technique" = "SWV"));
    simpl; reflexivity.
Qed.

Lemma apply_technique_page s s' technique common tp metals file
    common' tp' metals' file' potential current :
  (widgets s).1 = Done (technique, common, tp, metals, file) →
  (widgets s').1 = Done (technique, common', tp', metals', file') →
  apply_technique potential current technique (unpack_into tp common) =
  apply_technique potential current technique (unpack_into tp' common').
Proof.
  intros Hw Hw'.
  destruct (decide (technique ∈ ["LSV"; "DPV"; "SWV"])) as [Ht|Ht].
  - by rewrite !apply_technique_fits by (by eapply fits_page).
  - assert (technique ≠ "LSV") by (intros ->; apply Ht; by left).
    assert (technique ≠ "DPV") by (intros ->; apply Ht; right; by left).
    assert (technique ≠ "SWV") by (intros ->; apply Ht; right; right; by left).
    unfold apply_technique. by rewrite !decide_False.
Qed.

End sliders.

(** X18. The sliders change nothing on the page.  Two runs that differ in the
    slider positions only, with the same technique, the same selected metals
    and the same uploaded file, make the same Streamlit calls with the same
    arguments: the same charts, the same metrics, the same errors. *)
Theorem sliders_do_not_change_the_page (s s' : Ui.session) :
  Ui.selectbox_at s = Ui.selectbox_at s' →
  Ui.multiselect_at s = Ui.multiselect_at s' →
  Ui.file_at s = Ui.file_at s' →
  Ui.create_asv_app s = Ui.create_asv_app s'.
Proof.
  intros Hsel Hmulti Hfile.
  destruct (widgets_done s) as (common & tp & Hw).
  destruct (widgets_done s') as (common' & tp' & Hw').
  rewrite <- Hsel, <- Hmulti, <- Hfile in Hw'.
  rewrite (create_asv_app_unfold _ _ _ _ _ _ Hw).
  rewrite (create_asv_app_unfold _ _ _ _ _ _ Hw').
  rewrite (widgets_trace s s') by (by rewrite Hsel).
  cbv zeta.
  destruct (Ui.file_at s _) as [file|]; [|done].
  destruct (Ui.multiselect_at s _) as [|metal metals]; [done|].
  assert (∀ data,
            Ui.for_each (metal :: metals)
              (Ui.analyse (Ui.selectbox_at s "Select Technique")
                 (unpack_into tp common) data) =
            Ui.for_each (metal :: metals)
              (Ui.analyse (Ui.selectbox_at s "Select Technique")
                 (unpack_into tp' common') data)) as Hloop.
  { intros data. apply for_each_ext. intros m. apply analyse_ext.
    intros potential current. by eapply apply_technique_page. }
  destruct file as [why|data]; [done|].
  unfold Ui.read_csv.
  change (mret data ≫= ?f) with (((Ui.Done data, []) : Ui.UI DataFrame) ≫= f).
  by rewrite !ui_bind_done, Hloop.
Qed.

(** The first run against a run with every slider moved. *)
Lemma sliders_do_not_change_the_page_witness :
  Ui.create_asv_app UiSample.dpv_run =
  Ui.create_asv_app
    (Ui.Session (λ _, "DPV") (λ _, PyFloat 0.07) (λ _, ["Pb"; "Cd"])
       (λ _, Some (inr Sample.sweep4))).
Proof.
  apply (sliders_do_not_change_the_page UiSample.dpv_run
           (Ui.Session (λ _, "DPV") (λ _, PyFloat 0.07) (λ _, ["Pb"; "Cd"])
              (λ _, Some (inr Sample.sweep4))));
    reflexivity.
Defined.
